(** * mcp_use.agents.server_manager: the server coordinator

    A shallow embedding of [ServerManager] (src/mcp_use/agents/server_manager.py)
    and the properties of its connection life cycle.

    The coordinator owns three attributes (the active server, the
    initialized-servers flags and the per-server tool cache) and talks to two
    collaborators it does not implement: the connection client ([MCPClient])
    and the tool adapter ([LangChainAdapter]).  The collaborators are
    parameters of the development; their own mutable state is an abstract
    [World] threaded through every call, and each call made to them is
    recorded in a call log so that "the adapter is not invoked" can be
    stated.  Exceptions are values, and [try]/[except] is a combinator of a
    small state-and-exception monad.  Calls to [logger] write to the process
    log only and are left out. *)

From stdpp Require Import base strings gmap list pretty.

(** ** Python values *)

(** Exceptions raised by the collaborators.  Everything modelled derives from
    [Exception]; [ValueError] is the subclass the session lookup uses as its
    "no session exists" signal. *)
Inductive PyExc : Type :=
| ValueError (msg : string)
| OtherException (msg : string).

(** [str(e)] *)
Definition str (e : PyExc) : string :=
  match e with
  | ValueError msg => msg
  | OtherException msg => msg
  end.

(** [except ValueError] *)
Definition isinstance_ValueError (e : PyExc) : bool :=
  match e with
  | ValueError _ => true
  | OtherException _ => false
  end.

(** [except Exception] *)
Definition isinstance_Exception (e : PyExc) : bool := true.

(** A Python list object: its identity together with its elements.  The
    coordinator never mutates a list in place, so the elements of a given
    object are fixed. *)
Record PyList (A : Type) : Type := mkPyList {
  list_id : nat;
  items : list A
}.
Arguments mkPyList {A} _ _.
Arguments list_id {A} _.
Arguments items {A} _.

(** What an expression evaluating to a list yields: an object that already
    exists (an alias of it), or a list built by the expression itself. *)
Inductive PyListRef (A : Type) : Type :=
| Alias (o : PyList A)
| Fresh (xs : list A).
Arguments Alias {A} _.
Arguments Fresh {A} _.

Definition elements {A} (r : PyListRef A) : list A :=
  match r with
  | Alias o => items o
  | Fresh xs => xs
  end.

(** Truth value of a list: [if servers] *)
Definition list_truthy {A} (l : list A) : bool :=
  match l with
  | [] => false
  | _ :: _ => true
  end.

(** Truth value of a [str | None]: [None] and the empty string are false. *)
Definition name_truthy (o : option string) : bool :=
  match o with
  | None => false
  | Some EmptyString => false
  | Some (String _ _) => true
  end.

(** [sep.join(l)] *)
Definition join (sep : string) (l : list string) : string := String.concat sep l.

Definition newline : string := String (Ascii.ascii_of_nat 10) EmptyString.

(** ** The input schemas and the tools *)

Inductive ArgsSchema : Type :=
| ServerActionInput
| ListServersInput
| CurrentServerInput.

(** The fields of each pydantic model: name, type and description. *)
Definition schema_fields (a : ArgsSchema) : list (string * string * string) :=
  match a with
  | ServerActionInput => [("server_name", "str", "The name of the MCP server")]
  | ListServersInput => []
  | CurrentServerInput => []
  end.

(** The bound methods a management tool invokes. *)
Inductive Coroutine : Type :=
| co_list_servers
| co_connect_to_server
| co_get_active_server
| co_switch_server.

Record StructuredTool : Type := from_function {
  coroutine : Coroutine;
  name : string;
  description : string;
  args_schema : ArgsSchema
}.

(** A [BaseTool] is one of the coordinator's own structured tools or a tool
    produced by the adapter, which the coordinator re-exposes unchanged. *)
Inductive BaseTool (Tool : Type) : Type :=
| Structured (t : StructuredTool)
| Adapted (t : Tool).
Arguments Structured {Tool} _.
Arguments Adapted {Tool} _.

(** ** The collaborators *)

(** [MCPClient]: the registry lookup only reads; the session operations may
    change the client's state and may raise. *)
Record MCPClient (World Session : Type) : Type := {
  get_server_names : World -> list string;
  get_session : string -> World -> (PyExc + Session) * World;
  create_session : string -> World -> (PyExc + Session) * World
}.
Arguments get_server_names {World Session} _ _.
Arguments get_session {World Session} _ _ _.
Arguments create_session {World Session} _ _ _.

Record LangChainAdapter (World Connector Tool : Type) : Type := {
  create_langchain_tools :
    list Connector -> World -> (PyExc + PyList (BaseTool Tool)) * World
}.
Arguments create_langchain_tools {World Connector Tool} _ _ _.

(** One entry of the call log per call made to a collaborator. *)
Inductive Event (Connector : Type) : Type :=
| EvGetServerNames
| EvGetSession (server_name : string)
| EvCreateSession (server_name : string)
| EvCreateTools (connectors : list Connector).
Arguments EvGetServerNames {Connector}.
Arguments EvGetSession {Connector} _.
Arguments EvCreateSession {Connector} _.
Arguments EvCreateTools {Connector} _.

Definition is_adapter_call {Connector} (ev : Event Connector) : bool :=
  match ev with
  | EvCreateTools _ => true
  | _ => false
  end.

(** Number of adapter invocations in a log. *)
Definition adapter_calls {Connector} (log : list (Event Connector)) : nat :=
  length (List.filter is_adapter_call log).
Arguments adapter_calls {Connector} !log /.

(** ** The coordinator's attributes *)

Record ServerManager (Tool : Type) : Type := mkServerManager {
  active_server : option string;
  initialized_servers : gmap string bool;
  _server_tools : gmap string (PyList (BaseTool Tool))
}.
Arguments mkServerManager {Tool} _ _ _.
Arguments active_server {Tool} _.
Arguments initialized_servers {Tool} _.
Arguments _server_tools {Tool} _.

(** [__init__] *)
Definition init {Tool} : ServerManager Tool :=
  mkServerManager None ∅ ∅.

(** The coordinator, the collaborators' state and the call log. *)
Record Machine (World Connector Tool : Type) : Type := mkMachine {
  self : ServerManager Tool;
  world : World;
  calls : list (Event Connector)
}.
Arguments mkMachine {World Connector Tool} _ _ _.
Arguments self {World Connector Tool} _.
Arguments world {World Connector Tool} _.
Arguments calls {World Connector Tool} _.

(** ** A concrete pair of collaborators

    A client configured with five servers.  A session is identified by its
    server's name and its connector is that name; the client's state is the
    list of servers with a live session.  Server "b" refuses new sessions,
    the lookup for "d" fails with a fault that is not [ValueError], and the
    adapter cannot list the tools of "c". *)
Module Demo.

Definition World : Type := list string.
Definition Session : Type := string.
Definition Connector : Type := string.
Definition Tool : Type := string.

Definition connector (s : Session) : Connector := s.

Definition client : MCPClient World Session := {|
  get_server_names := fun _ => ["a"; "b"; "c"; "d"; ""];
  get_session := fun n w =>
    if bool_decide (n = "d") then (inl (OtherException "client is closed"), w)
    else if bool_decide (n ∈ w) then (inr n, w)
    else (inl (ValueError ("No session exists for server '" +:+ n +:+ "'")), w);
  create_session := fun n w =>
    if bool_decide (n = "b") then (inl (OtherException "connection refused"), w)
    else (inr n, n :: w)
|}.

Definition adapter : LangChainAdapter World Connector Tool := {|
  create_langchain_tools := fun cs w =>
    if bool_decide (cs = ["a"]) then
      (inr (mkPyList 1 [Adapted "read_file"; Adapted "write_file"]), w)
    else if bool_decide (cs = [""]) then
      (inr (mkPyList 2 [Adapted "ping"]), w)
    else (inl (OtherException "tools/list failed"), w)
|}.

(** A client that differs from [client] only in the text carried by the
    lookup's [ValueError]. *)
Definition terse_client : MCPClient World Session := {|
  get_server_names := get_server_names client;
  get_session := fun n w =>
    if bool_decide (n = "d") then (inl (OtherException "client is closed"), w)
    else if bool_decide (n ∈ w) then (inr n, w)
    else (inl (ValueError "no session"), w);
  create_session := create_session client
|}.

(** A client with two servers whose sessions can always be created, and an
    adapter that cannot list the tools of any server. *)
Definition pair_client : MCPClient World Session := {|
  get_server_names := fun _ => ["x"; "y"];
  get_session := fun n w =>
    if bool_decide (n ∈ w) then (inr n, w)
    else (inl (ValueError ("No session exists for server '" +:+ n +:+ "'")), w);
  create_session := fun n w => (inr n, n :: w)
|}.

Definition failing_adapter : LangChainAdapter World Connector Tool := {|
  create_langchain_tools := fun _ w =>
    (inl (OtherException "tools/list failed"), w)
|}.

(** A freshly constructed coordinator, no session opened yet. *)
Definition m0 : Machine World Connector Tool := mkMachine init [] [].

End Demo.

(** ** Operations *)

Section Coordinator.
Context {World Session Connector Tool : Type}.

(** [session.connector] *)
Variable connector : Session -> Connector.
(** [self.client] and [self.adapter], bound once by [__init__]. *)
Variable client : MCPClient World Session.
Variable adapter : LangChainAdapter World Connector Tool.

#[local] Abbreviation Mach := (Machine World Connector Tool).
#[local] Abbreviation Tools := (PyList (BaseTool Tool)).

(** *** The monad: state, and exceptions that keep the state reached *)

Definition M (A : Type) : Type := Mach -> (PyExc + A) * Mach.

#[local] Instance M_ret : MRet M :=
  fun A (x : A) m => (inr x, m).

#[local] Instance M_bind : MBind M :=
  fun A B (f : A -> M B) (c : M A) m =>
    match c m with
    | (inr x, m') => f x m'
    | (inl e, m') => (inl e, m')
    end.

(** [try: body except <class> as e: handler e] *)
Definition try_except {A} (body : M A) (catches : PyExc -> bool)
    (handler : PyExc -> M A) : M A :=
  fun m =>
    match body m with
    | (inl e, m') => if catches e then handler e m' else (inl e, m')
    | (inr x, m') => (inr x, m')
    end.

(** Reading and writing the attributes of [self]. *)
Definition read {A} (f : ServerManager Tool -> A) : M A :=
  fun m => (inr (f (self m)), m).

Definition write (f : ServerManager Tool -> ServerManager Tool) : M unit :=
  fun m => (inr tt, mkMachine (f (self m)) (world m) (calls m)).

Definition set_active_server (v : option string) (s : ServerManager Tool) :=
  mkServerManager v (initialized_servers s) (_server_tools s).

Definition set_server_tools (k : string) (v : Tools) (s : ServerManager Tool) :=
  mkServerManager (active_server s) (initialized_servers s)
    (<[k := v]> (_server_tools s)).

Definition set_initialized (k : string) (v : bool) (s : ServerManager Tool) :=
  mkServerManager (active_server s) (<[k := v]> (initialized_servers s))
    (_server_tools s).

(** Calls to the collaborators: each is logged, runs on the collaborators'
    state, and either returns or raises. *)
Definition call {A} (ev : Event Connector)
    (f : World -> (PyExc + A) * World) : M A :=
  fun m =>
    let '(r, w) := f (world m) in
    (r, mkMachine (self m) w (calls m ++ [ev])).

Definition client_get_server_names : M (list string) :=
  call EvGetServerNames (fun w => (inr (get_server_names client w), w)).

Definition client_get_session (server_name : string) : M Session :=
  call (EvGetSession server_name) (get_session client server_name).

Definition client_create_session (server_name : string) : M Session :=
  call (EvCreateSession server_name) (create_session client server_name).

Definition adapter_create_langchain_tools (connectors : list Connector)
    : M Tools :=
  call (EvCreateTools connectors) (create_langchain_tools adapter connectors).

(** *** The methods of [ServerManager] *)

Definition initialize : M unit :=
  _ ← client_get_server_names;
  mret tt.

Definition list_servers_tool : StructuredTool :=
  from_function co_list_servers "list_mcp_servers"
    "Lists all available MCP servers that can be connected to"
    ListServersInput.

Definition connect_server_tool : StructuredTool :=
  from_function co_connect_to_server "connect_to_mcp_server"
    "Connect to a specific MCP server to use its tools"
    ServerActionInput.

Definition get_active_server_tool : StructuredTool :=
  from_function co_get_active_server "get_active_mcp_server"
    "Get the currently active MCP server"
    CurrentServerInput.

Definition switch_server_tool : StructuredTool :=
  from_function co_switch_server "switch_mcp_server"
    "Switch to a different MCP server"
    ServerActionInput.

Definition get_server_management_tools : M (list (BaseTool Tool)) :=
  mret [ Structured list_servers_tool;
         Structured connect_server_tool;
         Structured get_active_server_tool;
         Structured switch_server_tool ].

(** The body of the [for] loop of [list_servers], [i] counting from 0. *)
Fixpoint list_servers_loop (active : option string) (i : nat)
    (servers : list string) (result : string) : string :=
  match servers with
  | [] => result
  | server :: rest =>
      let active_marker :=
        if bool_decide (Some server = active) then " (ACTIVE)" else "" in
      list_servers_loop active (S i) rest
        (result +:+ pretty (i + 1) +:+ ". " +:+ server +:+ active_marker
                +:+ newline)
  end.

Definition list_servers : M string :=
  servers ← client_get_server_names;
  if negb (list_truthy servers) then
    mret "No MCP servers are currently defined."
  else
    active ← read active_server;
    mret (list_servers_loop active 0 servers
            ("Available MCP servers:" +:+ newline)).

(** The inner [try]: look the session up, create it on [ValueError]. *)
Definition get_or_create_session (server_name : string) : M Session :=
  try_except (client_get_session server_name) isinstance_ValueError
    (fun _ => client_create_session server_name).

Definition not_found_message (server_name : string) (servers : list string)
    : string :=
  let available := if list_truthy servers then join ", " servers else "none" in
  "Server '" +:+ server_name +:+ "' not found. Available servers: "
    +:+ available.

Definition already_connected_message (server_name : string) : string :=
  "Already connected to MCP server '" +:+ server_name +:+ "'".

Definition connected_message (server_name : string) (num_tools : nat)
    : string :=
  "Connected to MCP server '" +:+ server_name +:+ "'. "
    +:+ pretty num_tools +:+ " tools are now available.".

Definition failed_message (server_name : string) (e : PyExc) : string :=
  "Failed to connect to server '" +:+ server_name +:+ "': " +:+ str e.

Definition connect_to_server (server_name : string) : M string :=
  servers ← client_get_server_names;
  if negb (bool_decide (server_name ∈ servers)) then
    mret (not_found_message server_name servers)
  else
    active ← read active_server;
    if bool_decide (active = Some server_name) then
      mret (already_connected_message server_name)
    else
      try_except
        (session ← get_or_create_session server_name;
         write (set_active_server (Some server_name));;
         tools ← read _server_tools;
         (if negb (bool_decide (is_Some (tools !! server_name))) then
            let connector := connector session in
            new_tools ← adapter_create_langchain_tools [connector];
            write (set_server_tools server_name new_tools);;
            write (set_initialized server_name true)
          else mret tt);;
         tools ← read _server_tools;
         let num_tools :=
           length (from_option items [] (tools !! server_name)) in
         mret (connected_message server_name num_tools))
        isinstance_Exception
        (fun e => mret (failed_message server_name e)).

Definition no_active_server_message : string :=
  "No MCP server is currently active. "
    +:+ "Use connect_to_mcp_server to connect to a server.".

Definition get_active_server : M string :=
  active ← read active_server;
  if negb (name_truthy active) then
    mret no_active_server_message
  else
    mret ("Currently active MCP server: " +:+ default "" active).

Definition switch_server (server_name : string) : M string :=
  connect_to_server server_name.

Definition get_active_server_tools : M (PyListRef (BaseTool Tool)) :=
  active ← read active_server;
  if negb (name_truthy active) then
    mret (Fresh [])
  else
    tools ← read _server_tools;
    mret (from_option Alias (Fresh []) (tools !! default "" active)).

Definition get_all_tools : M (list (BaseTool Tool)) :=
  management_tools ← get_server_management_tools;
  active_server_tools ← get_active_server_tools;
  mret (management_tools ++ elements active_server_tools).

(** ** Runs of calls *)

(** The state a call leaves, the collaborators' state unchanged and the call
    logged. *)
Definition log_call (ev : Event Connector) (m : Mach) : Mach :=
  mkMachine (self m) (world m) (calls m ++ [ev]).

(** The public methods, as the callers of the coordinator invoke them. *)
Inductive Call : Type :=
| CallInitialize
| CallGetServerManagementTools
| CallListServers
| CallConnectToServer (server_name : string)
| CallGetActiveServer
| CallSwitchServer (server_name : string)
| CallGetActiveServerTools
| CallGetAllTools.

Definition exec_call (c : Call) (m : Mach) : Mach :=
  match c with
  | CallInitialize => snd (initialize m)
  | CallGetServerManagementTools => snd (get_server_management_tools m)
  | CallListServers => snd (list_servers m)
  | CallConnectToServer server_name => snd (connect_to_server server_name m)
  | CallGetActiveServer => snd (get_active_server m)
  | CallSwitchServer server_name => snd (switch_server server_name m)
  | CallGetActiveServerTools => snd (get_active_server_tools m)
  | CallGetAllTools => snd (get_all_tools m)
  end.

Definition exec_calls (cs : list Call) (m : Mach) : Mach :=
  fold_left (fun m c => exec_call c m) cs m.

(** Is [c] a connect or switch to [X]? *)
Definition targets (X : string) (c : Call) : bool :=
  match c with
  | CallConnectToServer n | CallSwitchServer n => bool_decide (n = X)
  | _ => false
  end.

(** Is [c] a connect or switch to a server other than [X]? *)
Definition targets_other (X : string) (c : Call) : bool :=
  match c with
  | CallConnectToServer n | CallSwitchServer n => negb (bool_decide (n = X))
  | _ => false
  end.

(** Adapter invocations made by the calls of [cs] that connect or switch to
    [X], the run starting in [m]. *)
Fixpoint adapter_calls_for (X : string) (cs : list Call) (m : Mach) : nat :=
  match cs with
  | [] => 0
  | c :: cs' =>
      let m' := exec_call c m in
      (if targets X c
       then adapter_calls (calls m') - adapter_calls (calls m)
       else 0)
      + adapter_calls_for X cs' m'
  end.

(** No connect or switch to [X] in the run [cs] from [m] answers
    "Connected". *)
Fixpoint no_success (X : string) (cs : list Call) (m : Mach) : Prop :=
  match cs with
  | [] => True
  | c :: cs' =>
      (targets X c = true ->
       forall n, fst (connect_to_server X m) <> inr (connected_message X n)) /\
      no_success X cs' (exec_call c m)
  end.

(** [X] is the active server after every call of the run [cs] from [m]. *)
Fixpoint stays_active (X : string) (cs : list Call) (m : Mach) : Prop :=
  match cs with
  | [] => True
  | c :: cs' =>
      active_server (self (exec_call c m)) = Some X /\
      stays_active X cs' (exec_call c m)
  end.

(** The same call with the other of the two verbs, connect and switch. *)
Definition swap_verb (c : Call) : Call :=
  match c with
  | CallConnectToServer n => CallSwitchServer n
  | CallSwitchServer n => CallConnectToServer n
  | _ => c
  end.

(** The state [connect_to_server] reaches once the session is in hand. *)
Definition activate (server_name : string) (m : Mach) : Mach :=
  mkMachine (set_active_server (Some server_name) (self m)) (world m) (calls m).

(** [m'] differs from [m] by log entries that are not adapter calls. *)
Definition quiet (m m' : Mach) : Prop :=
  self m' = self m /\ world m' = world m /\
  adapter_calls (calls m') = adapter_calls (calls m).

(** The cached action sequence of the active server as the specification
    words it: the cache entry of the active server, and the empty sequence
    when no server is active or nothing is cached for it. *)
Definition cached_for_active (s : ServerManager Tool) : list (BaseTool Tool) :=
  match active_server s with
  | Some a => from_option items [] (_server_tools s !! a)
  | None => []
  end.

(** The four management actions, in the order [get_server_management_tools]
    lists them. *)
Definition management_tools : list (BaseTool Tool) :=
  [ Structured list_servers_tool;
    Structured connect_server_tool;
    Structured get_active_server_tool;
    Structured switch_server_tool ].

(** ** Notions the further properties are stated with *)

(** One line of the listing of [list_servers], [i] counting from 0: the
    number, the name, the marker when the name is the active server. *)
Definition list_servers_line (active : option string) (i : nat)
    (server : string) : string :=
  pretty (i + 1) +:+ ". " +:+ server
    +:+ (if bool_decide (Some server = active) then " (ACTIVE)" else "")
    +:+ newline.

(** The strings of [l], one after the other. *)
Definition concat_strings (l : list string) : string :=
  foldr String.append "" l.

(** Is [c] a connect or a switch? *)
Definition is_connect (c : Call) : bool :=
  match c with
  | CallConnectToServer _ | CallSwitchServer _ => true
  | _ => false
  end.

(** The initialized flags are the keys of the tool cache, each flag [True]. *)
Definition flags_match (s : ServerManager Tool) : Prop :=
  initialized_servers s = (fun _ => true) <$> _server_tools s.

(** An adapter call passes exactly one connector. *)
Definition one_connector (ev : Event Connector) : Prop :=
  match ev with
  | EvCreateTools connectors => length connectors = 1
  | _ => True
  end.

(** ** Equations of the methods *)

Ltac run_M :=
  unfold mbind, M_bind, mret, M_ret, client_get_server_names,
    client_get_session, client_create_session,
    adapter_create_langchain_tools, call, read, write, try_except; simpl.

(** The inner [try], in terms of the client's two operations. *)
Lemma get_or_create_session_eq server_name m :
  get_or_create_session server_name m =
    match get_session client server_name (world m) with
    | (inr s, w1) => (inr s, mkMachine (self m) w1
                               (calls m ++ [EvGetSession server_name]))
    | (inl e, w1) =>
        if isinstance_ValueError e then
          let '(r, w2) := create_session client server_name w1 in
          (r, mkMachine (self m) w2
                (calls m ++ [EvGetSession server_name;
                             EvCreateSession server_name]))
        else (inl e, mkMachine (self m) w1
                       (calls m ++ [EvGetSession server_name]))
    end.
Proof.
  unfold get_or_create_session. run_M.
  destruct (get_session client server_name (world m)) as [[e|s] w1]; simpl;
    [|reflexivity].
  destruct (isinstance_ValueError e); [|reflexivity].
  destruct (create_session client server_name w1) as [r w2]; simpl.
  by rewrite <- app_assoc.
Qed.

Lemma get_or_create_session_self server_name m r m' :
  get_or_create_session server_name m = (r, m') -> self m' = self m.
Proof.
  rewrite get_or_create_session_eq.
  destruct (get_session client server_name (world m)) as [[e|s] w1].
  - destruct (isinstance_ValueError e).
    + destruct (create_session client server_name w1) as [r' w2].
      by intros [= <- <-].
    + by intros [= <- <-].
  - by intros [= <- <-].
Qed.

(** Step 1 of [connect_to_server]: the name is not in the registry. *)
Lemma connect_unknown server_name m :
  server_name ∉ get_server_names client (world m) ->
  connect_to_server server_name m =
    (inr (not_found_message server_name (get_server_names client (world m))),
     log_call EvGetServerNames m).
Proof.
  intros Hn. unfold connect_to_server. run_M.
  by rewrite bool_decide_eq_false_2.
Qed.

(** Step 2: the name is the active server. *)
Lemma connect_active server_name m :
  server_name ∈ get_server_names client (world m) ->
  active_server (self m) = Some server_name ->
  connect_to_server server_name m =
    (inr (already_connected_message server_name),
     log_call EvGetServerNames m).
Proof.
  intros Hn Ha. unfold connect_to_server. run_M.
  rewrite bool_decide_eq_true_2 by done. simpl.
  by rewrite bool_decide_eq_true_2.
Qed.

(** Steps 3 to 6: the outer [try], by cases on what the session acquisition
    and the adapter do. *)
Lemma connect_known_inactive server_name m :
  server_name ∈ get_server_names client (world m) ->
  active_server (self m) <> Some server_name ->
  connect_to_server server_name m =
    match get_or_create_session server_name (log_call EvGetServerNames m) with
    | (inl e, m2) => (inr (failed_message server_name e), m2)
    | (inr session, m2) =>
        match _server_tools (self m2) !! server_name with
        | Some l =>
            (inr (connected_message server_name (length (items l))),
             activate server_name m2)
        | None =>
            let ev := EvCreateTools [connector session] in
            match create_langchain_tools adapter [connector session] (world m2)
            with
            | (inl e, w3) =>
                (inr (failed_message server_name e),
                 mkMachine (set_active_server (Some server_name) (self m2))
                   w3 (calls m2 ++ [ev]))
            | (inr l, w3) =>
                (inr (connected_message server_name (length (items l))),
                 mkMachine
                   (set_initialized server_name true
                      (set_server_tools server_name l
                         (set_active_server (Some server_name) (self m2))))
                   w3 (calls m2 ++ [ev]))
            end
        end
    end.
Proof.
  intros Hn Ha. unfold connect_to_server. run_M.
  rewrite bool_decide_eq_true_2 by done. simpl.
  rewrite bool_decide_eq_false_2 by done.
  fold (log_call EvGetServerNames m).
  destruct (get_or_create_session _ _) as [[e|session] m2]; [reflexivity|].
  destruct (_server_tools (self m2) !! server_name) as [l|] eqn:Hl.
  - rewrite bool_decide_eq_true_2 by eauto. simpl. by rewrite Hl.
  - rewrite bool_decide_eq_false_2 by (intros [? ?]; congruence). simpl.
    destruct (create_langchain_tools adapter _ _) as [[e|l] w3]; simpl;
      [reflexivity|].
    by rewrite lookup_insert_eq.
Qed.

(** ** The four status messages are told apart by their first letter *)

Lemma connected_not_not_found x n y l :
  connected_message x n <> not_found_message y l.
Proof. discriminate. Qed.

Lemma connected_not_already x n y :
  connected_message x n <> already_connected_message y.
Proof. discriminate. Qed.

Lemma connected_not_failed x n y e :
  connected_message x n <> failed_message y e.
Proof. discriminate. Qed.

(** ** The call log *)

Lemma adapter_calls_app (l1 l2 : list (Event Connector)) :
  adapter_calls (l1 ++ l2) = adapter_calls l1 + adapter_calls l2.
Proof. unfold adapter_calls. by rewrite List.filter_app, length_app. Qed.

Lemma get_or_create_session_adapter_calls server_name m r m' :
  get_or_create_session server_name m = (r, m') ->
  adapter_calls (calls m') = adapter_calls (calls m).
Proof.
  rewrite get_or_create_session_eq.
  destruct (get_session client server_name (world m)) as [[e|s] w1].
  - destruct (isinstance_ValueError e).
    + destruct (create_session client server_name w1) as [r' w2].
      intros [= <- <-]. simpl. rewrite adapter_calls_app. simpl. lia.
    + intros [= <- <-]. simpl. rewrite adapter_calls_app. simpl. lia.
  - intros [= <- <-]. simpl. rewrite adapter_calls_app. simpl. lia.
Qed.

(** ** What a successful connect went through *)

Lemma returned_eq (x y : string) (m m' : Mach) :
  (@inr PyExc string x, m) = (inr y, m') -> x = y /\ m = m'.
Proof. by intros [= -> ->]. Qed.

Lemma connect_connected_inv server_name m n m1 :
  connect_to_server server_name m = (inr (connected_message server_name n), m1) ->
  server_name ∈ get_server_names client (world m) /\
  active_server (self m) <> Some server_name /\
  exists session m2,
    get_or_create_session server_name (log_call EvGetServerNames m)
      = (inr session, m2) /\
    match _server_tools (self m) !! server_name with
    | Some l => m1 = activate server_name m2
    | None =>
        exists l w3,
          create_langchain_tools adapter [connector session] (world m2)
            = (inr l, w3) /\
          m1 = mkMachine
                 (set_initialized server_name true
                    (set_server_tools server_name l
                       (set_active_server (Some server_name) (self m2))))
                 w3 (calls m2 ++ [EvCreateTools [connector session]])
    end.
Proof.
  intros H.
  destruct (decide (server_name ∈ get_server_names client (world m))) as [Hk|Hk];
    [|rewrite connect_unknown in H by done; apply returned_eq in H as [H _];
      by destruct (connected_not_not_found _ _ _ _ (eq_sym H))].
  destruct (decide (active_server (self m) = Some server_name)) as [Ha|Ha];
    [rewrite connect_active in H by done; apply returned_eq in H as [H _];
      by destruct (connected_not_already _ _ _ (eq_sym H))|].
  split; [done|]. split; [done|].
  rewrite connect_known_inactive in H by done.
  destruct (get_or_create_session _ _) as [[e|session] m2] eqn:Hs;
    [apply returned_eq in H as [H _];
     by destruct (connected_not_failed _ _ _ _ (eq_sym H))|].
  exists session, m2. split; [done|].
  apply get_or_create_session_self in Hs. simpl in Hs. rewrite <- Hs.
  destruct (_server_tools (self m2) !! server_name) as [l|].
  - by apply returned_eq in H as [_ <-].
  - destruct (create_langchain_tools adapter _ _) as [[e|l] w3] eqn:Hc;
      [apply returned_eq in H as [H _];
       by destruct (connected_not_failed _ _ _ _ (eq_sym H))|].
    exists l, w3. split; [done|]. by apply returned_eq in H as [_ <-].
Qed.

Lemma connect_connected_active server_name m n m1 :
  connect_to_server server_name m = (inr (connected_message server_name n), m1) ->
  active_server (self m1) = Some server_name.
Proof.
  intros H. apply connect_connected_inv in H as (_ & _ & s & m2 & _ & H).
  destruct (_server_tools (self m) !! server_name).
  - by subst m1.
  - destruct H as (l & w3 & _ & ->). reflexivity.
Qed.

(** ** Calls that leave the coordinator alone *)

Lemma quiet_refl m : quiet m m.
Proof. done. Qed.

Lemma quiet_log_call m : quiet m (log_call EvGetServerNames m).
Proof.
  repeat split. simpl. rewrite adapter_calls_app. simpl. lia.
Qed.

Lemma quiet_trans m1 m2 m3 : quiet m1 m2 -> quiet m2 m3 -> quiet m1 m3.
Proof. intros (A1 & B1 & C1) (A2 & B2 & C2). repeat split; congruence. Qed.

Lemma initialize_quiet m : quiet m (snd (initialize m)).
Proof. apply quiet_log_call. Qed.

Lemma get_server_management_tools_quiet m :
  quiet m (snd (get_server_management_tools m)).
Proof. apply quiet_refl. Qed.

Lemma list_servers_quiet m : quiet m (snd (list_servers m)).
Proof.
  unfold list_servers. run_M.
  destruct (list_truthy _); apply quiet_log_call.
Qed.

Lemma get_active_server_quiet m : quiet m (snd (get_active_server m)).
Proof.
  unfold get_active_server. run_M.
  destruct (name_truthy _); apply quiet_refl.
Qed.

Lemma get_active_server_tools_quiet m :
  quiet m (snd (get_active_server_tools m)).
Proof.
  unfold get_active_server_tools. run_M.
  destruct (name_truthy _); apply quiet_refl.
Qed.

Lemma get_all_tools_quiet m : quiet m (snd (get_all_tools m)).
Proof.
  unfold get_all_tools, get_server_management_tools, get_active_server_tools.
  run_M. destruct (name_truthy _); apply quiet_refl.
Qed.

(** Connecting to the server that is already active changes nothing,
    whether or not the registry still lists it. *)
Lemma connect_when_active server_name m :
  active_server (self m) = Some server_name ->
  quiet m (snd (connect_to_server server_name m)).
Proof.
  intros Ha.
  destruct (decide (server_name ∈ get_server_names client (world m)))
    as [Hk|Hk].
  - rewrite connect_active by done. apply quiet_log_call.
  - rewrite connect_unknown by done. apply quiet_log_call.
Qed.

(** No call removes or replaces a cache entry. *)
Lemma connect_cache_mono server_name m Y l :
  _server_tools (self m) !! Y = Some l ->
  _server_tools (self (snd (connect_to_server server_name m))) !! Y = Some l.
Proof.
  intros HY.
  destruct (decide (server_name ∈ get_server_names client (world m)))
    as [Hk|Hk]; [|by rewrite connect_unknown].
  destruct (decide (active_server (self m) = Some server_name)) as [Ha|Ha];
    [by rewrite connect_active|].
  rewrite connect_known_inactive by done.
  destruct (get_or_create_session _ _) as [[e|session] m2] eqn:Hs;
    apply get_or_create_session_self in Hs; simpl in Hs.
  - simpl. by rewrite Hs.
  - rewrite Hs.
    destruct (_server_tools (self m) !! server_name) as [l'|] eqn:Hl;
      [unfold activate; simpl; by rewrite Hs|].
    destruct (create_langchain_tools adapter _ _) as [[e'|l'] w3]; simpl;
      [done|].
    rewrite lookup_insert_ne; [done|]. intros ->. congruence.
Qed.

Lemma exec_call_cache_mono c m Y l :
  _server_tools (self m) !! Y = Some l ->
  _server_tools (self (exec_call c m)) !! Y = Some l.
Proof.
  intros HY. destruct c; unfold exec_call, switch_server;
    try (by apply connect_cache_mono).
  - by destruct (initialize_quiet m) as (-> & _).
  - by destruct (get_server_management_tools_quiet m) as (-> & _).
  - by destruct (list_servers_quiet m) as (-> & _).
  - by destruct (get_active_server_quiet m) as (-> & _).
  - by destruct (get_active_server_tools_quiet m) as (-> & _).
  - by destruct (get_all_tools_quiet m) as (-> & _).
Qed.

Lemma exec_calls_cache_mono cs m Y l :
  _server_tools (self m) !! Y = Some l ->
  _server_tools (self (exec_calls cs m)) !! Y = Some l.
Proof.
  revert m. induction cs as [|c cs IH]; intros m HY; [done|].
  simpl. apply IH. by apply exec_call_cache_mono.
Qed.

(** Connecting to a cached server does not reach the adapter. *)
Lemma connect_cached_no_adapter server_name m l :
  _server_tools (self m) !! server_name = Some l ->
  adapter_calls (calls (snd (connect_to_server server_name m)))
    = adapter_calls (calls m).
Proof.
  intros Hl.
  destruct (decide (active_server (self m) = Some server_name)) as [Ha|Ha];
    [by destruct (connect_when_active _ _ Ha) as (_ & _ & ?)|].
  destruct (decide (server_name ∈ get_server_names client (world m)))
    as [Hk|Hk]; [|rewrite connect_unknown by done; apply quiet_log_call].
  rewrite connect_known_inactive by done.
  destruct (get_or_create_session _ _) as [[e|session] m2] eqn:Hs;
    pose proof (get_or_create_session_self _ _ _ _ Hs) as Hself;
    apply get_or_create_session_adapter_calls in Hs; simpl in Hs, Hself.
  - simpl. rewrite Hs, adapter_calls_app. simpl. lia.
  - rewrite Hself, Hl. simpl. rewrite Hs, adapter_calls_app. simpl. lia.
Qed.

Lemma adapter_calls_for_cached X cs m l :
  _server_tools (self m) !! X = Some l ->
  adapter_calls_for X cs m = 0.
Proof.
  revert m. induction cs as [|c cs IH]; intros m Hl; [done|].
  cbn [adapter_calls_for]. rewrite (IH _ (exec_call_cache_mono c m X l Hl)).
  destruct c; unfold targets, exec_call, switch_server; try done;
    (case_bool_decide; [subst|done]);
    rewrite (connect_cached_no_adapter _ _ _ Hl); lia.
Qed.

(** ** Properties of the connection life cycle *)

(** C4. For a server name absent from the client's registry,
    [connect_to_server] returns the failure message that names the unknown
    server and lists the known names (the literal "none" when the registry
    is empty), and leaves the active server, the tool cache and the
    initialized-servers flags as they were; the collaborators' state is
    untouched as well. *)
Theorem connect_unknown_server server_name m :
  server_name ∉ get_server_names client (world m) ->
  let servers := get_server_names client (world m) in
  let r := connect_to_server server_name m in
  fst r = inr ("Server '" +:+ server_name
               +:+ "' not found. Available servers: "
               +:+ match servers with
                   | [] => "none"
                   | _ :: _ => join ", " servers
                   end) /\
  active_server (self (snd r)) = active_server (self m) /\
  _server_tools (self (snd r)) = _server_tools (self m) /\
  initialized_servers (self (snd r)) = initialized_servers (self m) /\
  world (snd r) = world m.
Proof.
  intros Hn servers r. subst r. rewrite connect_unknown by done.
  repeat split. simpl. unfold not_found_message. fold servers.
  by destruct servers.
Qed.

(** A call that answers "already connected" found [X] active and changed
    nothing. *)
Lemma connect_already_inv X m m1 :
  connect_to_server X m = (inr (already_connected_message X), m1) ->
  active_server (self m1) = Some X /\ self m1 = self m.
Proof.
  intros H.
  destruct (decide (X ∈ get_server_names client (world m))) as [Hk|Hk];
    [|rewrite connect_unknown in H by done; by apply returned_eq in H as [H _]].
  destruct (decide (active_server (self m) = Some X)) as [Ha|Ha];
    [rewrite connect_active in H by done; by apply returned_eq in H as [_ <-]|].
  rewrite connect_known_inactive in H by done.
  destruct (get_or_create_session _ _) as [[e|session] m2];
    [by apply returned_eq in H as [H _]|].
  destruct (_server_tools (self m2) !! X);
    [by apply returned_eq in H as [H _]|].
  destruct (create_langchain_tools adapter _ _) as [[e|l] w3];
    by apply returned_eq in H as [H _].
Qed.

(** C1. When a first [connect_to_server X] has completed successfully
    (it answered "Connected", or "Already connected" because [X] was the
    active server), a second [connect_to_server X] made in the state it left,
    the client still listing [X], returns the "already connected" message
    and mutates nothing: the coordinator's attributes and the collaborators'
    state are the same, so the cache entry of [X] is the same list object,
    and [X] is still the active server.  After a "Connected" answer the
    entry exists. *)
Theorem connect_twice_already_connected X m txt n m1 :
  connect_to_server X m = (inr txt, m1) ->
  txt = connected_message X n \/ txt = already_connected_message X ->
  X ∈ get_server_names client (world m1) ->
  let r := connect_to_server X m1 in
  fst r = inr ("Already connected to MCP server '" +:+ X +:+ "'") /\
  self (snd r) = self m1 /\
  world (snd r) = world m1 /\
  _server_tools (self (snd r)) !! X = _server_tools (self m1) !! X /\
  active_server (self (snd r)) = Some X /\
  active_server (self m1) = Some X /\
  (txt = connected_message X n -> is_Some (_server_tools (self m1) !! X)).
Proof.
  intros H1 Htxt Hk r. subst r.
  assert (active_server (self m1) = Some X) as Ha.
  { destruct Htxt as [-> | ->].
    - by eapply connect_connected_active.
    - by apply connect_already_inv in H1 as [? _]. }
  rewrite connect_active by done. simpl.
  repeat split; try done.
  intros ->.
  apply connect_connected_inv in H1 as (_ & _ & s & m2 & Hs & H1).
  apply get_or_create_session_self in Hs. simpl in Hs.
  destruct (_server_tools (self m) !! X) as [l|] eqn:Hl.
  - subst m1. simpl. rewrite Hs, Hl. eauto.
  - destruct H1 as (l & w3 & _ & ->). simpl.
    rewrite lookup_insert_eq. eauto.
Qed.

(** C5. [switch_server] and [connect_to_server] are the same operation:
    for every name and every prior state they return the same text and
    leave the same state; hence exchanging the two verbs anywhere in a run
    of calls leads to the same state. *)
Theorem switch_server_is_connect :
  (forall server_name m,
     switch_server server_name m = connect_to_server server_name m) /\
  (forall cs m, exec_calls (map swap_verb cs) m = exec_calls cs m).
Proof.
  split; [reflexivity|].
  induction cs as [|c cs IH]; intros m; [reflexivity|].
  simpl. rewrite IH. f_equal. by destruct c.
Qed.

(** C10. If [connect_to_server ""] completes successfully, the empty string
    is a known server name and is now the active server; nevertheless
    [get_active_server] returns the "no MCP server is currently active"
    prompt and [get_active_server_tools] returns the empty sequence. *)
Theorem empty_name_reads_as_inactive m n m1 :
  connect_to_server "" m = (inr (connected_message "" n), m1) ->
  "" ∈ get_server_names client (world m) /\
  active_server (self m1) = Some "" /\
  get_active_server m1
    = (inr ("No MCP server is currently active. "
            +:+ "Use connect_to_mcp_server to connect to a server."), m1) /\
  get_active_server_tools m1 = (inr (Fresh []), m1).
Proof.
  intros H.
  pose proof (connect_connected_active _ _ _ _ H) as Ha.
  apply connect_connected_inv in H as (Hk & _).
  split; [done|]. split; [done|].
  unfold get_active_server, get_active_server_tools. run_M.
  by rewrite Ha.
Qed.

(** What [get_active_server_tools] returns: the cache entry itself when the
    active server's name is truthy and cached, a new empty list otherwise. *)
Lemma get_active_server_tools_eq m :
  get_active_server_tools m =
    (inr (if name_truthy (active_server (self m))
          then from_option Alias (Fresh [])
                 (_server_tools (self m) !! default "" (active_server (self m)))
          else Fresh []), m).
Proof.
  unfold get_active_server_tools. run_M.
  by destruct (name_truthy _).
Qed.

(** What [get_all_tools] returns in every state: the management actions
    followed by the elements [get_active_server_tools] yields. *)
Lemma get_all_tools_eq m :
  get_all_tools m =
    (inr (management_tools
            ++ (if name_truthy (active_server (self m))
                then cached_for_active (self m) else [])), m).
Proof.
  unfold get_all_tools, get_server_management_tools. run_M.
  rewrite get_active_server_tools_eq. unfold cached_for_active.
  destruct (active_server (self m)) as [[|c a]|]; simpl; try done.
  by destruct (_server_tools (self m) !! String c a).
Qed.

(** X12. In every state but those where the empty string is the active
    server and has a non-empty cache entry, [get_all_tools] returns the four
    management actions, in the order list, connect, get-active, switch,
    followed by the cached action sequence of the active server (nothing
    when no server is active or nothing is cached for it); its length is 4
    plus the length of that sequence, and the state is not changed.  In the
    excepted states it returns the four management actions only. *)
Theorem get_all_tools_contents m :
  ((active_server (self m) = Some "" -> cached_for_active (self m) = []) ->
   get_all_tools m
     = (inr (management_tools ++ cached_for_active (self m)), m) /\
   exists tools,
     fst (get_all_tools m) = inr tools /\
     length tools = 4 + length (cached_for_active (self m))) /\
  (active_server (self m) = Some "" ->
   get_all_tools m = (inr management_tools, m)) /\
  map (fun t => match t with
                | Structured st => Some (coroutine st, name st)
                | Adapted _ => None
                end) management_tools
    = [ Some (co_list_servers, "list_mcp_servers");
        Some (co_connect_to_server, "connect_to_mcp_server");
        Some (co_get_active_server, "get_active_mcp_server");
        Some (co_switch_server, "switch_mcp_server") ].
Proof.
  split; [|split; [|reflexivity]].
  - intros Hne.
    assert (get_all_tools m
            = (inr (management_tools ++ cached_for_active (self m)), m)) as E.
    { rewrite get_all_tools_eq.
      destruct (active_server (self m)) as [[|c a]|] eqn:Ha; simpl;
        [|done|by unfold cached_for_active; rewrite Ha].
      by rewrite Hne. }
    rewrite E. split; [done|]. eauto.
  - intros Ha. by rewrite get_all_tools_eq, Ha.
Qed.

(** The failure path after the session is in hand: the adapter raises. *)
Lemma connect_materialization_failed X m session m2 e w3 :
  X ∈ get_server_names client (world m) ->
  active_server (self m) <> Some X ->
  get_or_create_session X (log_call EvGetServerNames m) = (inr session, m2) ->
  _server_tools (self m) !! X = None ->
  create_langchain_tools adapter [connector session] (world m2) = (inl e, w3) ->
  connect_to_server X m =
    (inr (failed_message X e),
     mkMachine (set_active_server (Some X) (self m)) w3
       (calls m2 ++ [EvCreateTools [connector session]])).
Proof.
  intros Hk Ha Hs Hl Hc. rewrite connect_known_inactive by done. rewrite Hs.
  apply get_or_create_session_self in Hs. simpl in Hs.
  rewrite Hs, Hl. simpl. by rewrite Hc.
Qed.

(** C3. For a known server [X] that is not the active one: if the session
    is acquired but the adapter's tool construction then raises, the call
    returns the failure message, [X] is the active server afterwards, the
    cache still has no entry for [X], and [get_active_server_tools] in
    that state returns the empty sequence. *)
Theorem materialization_failure_sets_active X m session m2 e w3 :
  X ∈ get_server_names client (world m) ->
  active_server (self m) <> Some X ->
  get_or_create_session X (log_call EvGetServerNames m) = (inr session, m2) ->
  _server_tools (self m) !! X = None ->
  create_langchain_tools adapter [connector session] (world m2) = (inl e, w3) ->
  let r := connect_to_server X m in
  fst r = inr ("Failed to connect to server '" +:+ X +:+ "': " +:+ str e) /\
  active_server (self (snd r)) = Some X /\
  _server_tools (self (snd r)) !! X = None /\
  get_active_server_tools (snd r) = (inr (Fresh []), snd r).
Proof.
  intros Hk Ha Hs Hl Hc r. subst r.
  rewrite (connect_materialization_failed _ _ _ _ _ _ Hk Ha Hs Hl Hc). simpl.
  repeat split; try done.
  rewrite get_active_server_tools_eq. simpl.
  destruct X; [done|]. simpl. by rewrite Hl.
Qed.

(** C2, amended. For a known server that is not the active one, a failure
    other than the lookup's [ValueError] is caught and turned into the
    failure message carrying the server name and the error text.  When the
    failure is in session acquisition (the lookup raises something else, or
    the lookup raises [ValueError] and the creation raises), the
    coordinator's attributes are all unchanged.  When the adapter raises
    after the session was acquired, the tool cache and the initialized flags
    are unchanged and the active server is the requested name. *)
Theorem connect_failure_effects X m r m2 :
  X ∈ get_server_names client (world m) ->
  active_server (self m) <> Some X ->
  get_or_create_session X (log_call EvGetServerNames m) = (r, m2) ->
  (forall e, r = inl e ->
     ((exists w1, get_session client X (world m) = (inl e, w1) /\
                  isinstance_ValueError e = false) \/
      (exists msg w1 w2,
         get_session client X (world m) = (inl (ValueError msg), w1) /\
         create_session client X w1 = (inl e, w2))) /\
     connect_to_server X m
       = (inr ("Failed to connect to server '" +:+ X +:+ "': " +:+ str e), m2) /\
     self m2 = self m) /\
  (forall session e w3, r = inr session ->
     _server_tools (self m) !! X = None ->
     create_langchain_tools adapter [connector session] (world m2) = (inl e, w3) ->
     let r' := connect_to_server X m in
     fst r' = inr ("Failed to connect to server '" +:+ X +:+ "': " +:+ str e) /\
     active_server (self (snd r')) = Some X /\
     _server_tools (self (snd r')) = _server_tools (self m) /\
     initialized_servers (self (snd r')) = initialized_servers (self m)).
Proof.
  intros Hk Ha Hs. split.
  - intros e ->. split; [|split].
    + rewrite get_or_create_session_eq in Hs. simpl in Hs.
      destruct (get_session client X (world m)) as [[e'|s] w1]; [|done].
      destruct e' as [msg|msg]; simpl in Hs.
      * right. destruct (create_session client X w1) as [r' w2] eqn:Hc.
        injection Hs as -> _. eauto.
      * left. injection Hs as <- _. eauto.
    + rewrite connect_known_inactive by done. by rewrite Hs.
    + by apply get_or_create_session_self in Hs.
  - intros session e w3 -> Hl Hc r'. subst r'.
    by rewrite (connect_materialization_failed _ _ _ _ _ _ Hk Ha Hs Hl Hc).
Qed.

(** A server gets its cache entry from a connect to it that answers
    "Connected", and from nothing else. *)
Lemma connect_uncached X Y m :
  _server_tools (self m) !! X = None ->
  (Y = X ->
   forall n, fst (connect_to_server X m) <> inr (connected_message X n)) ->
  _server_tools (self (snd (connect_to_server Y m))) !! X = None.
Proof.
  intros Hl Hno.
  destruct (decide (Y ∈ get_server_names client (world m))) as [Hk|Hk];
    [|by rewrite connect_unknown].
  destruct (decide (active_server (self m) = Some Y)) as [Ha|Ha];
    [by rewrite connect_active|].
  rewrite connect_known_inactive by done.
  destruct (get_or_create_session Y _) as [[e|session] m2] eqn:Hs;
    pose proof (get_or_create_session_self _ _ _ _ Hs) as Hself;
    simpl in Hself.
  { simpl. by rewrite Hself. }
  destruct (_server_tools (self m2) !! Y) as [l'|] eqn:HY;
    [unfold activate; simpl; by rewrite Hself|].
  destruct (create_langchain_tools adapter _ _) as [[e'|l'] w3] eqn:Hc;
    simpl; rewrite Hself; [done|].
  destruct (decide (Y = X)) as [->|Hne]; [|by rewrite lookup_insert_ne].
  destruct (Hno eq_refl (length (items l'))).
  rewrite connect_known_inactive by done.
  by rewrite Hs, HY, Hc.
Qed.

Lemma exec_call_uncached X c m :
  _server_tools (self m) !! X = None ->
  (targets X c = true ->
   forall n, fst (connect_to_server X m) <> inr (connected_message X n)) ->
  _server_tools (self (exec_call c m)) !! X = None.
Proof.
  intros Hl Hno. destruct c; unfold exec_call, switch_server.
  - by destruct (initialize_quiet m) as (-> & _).
  - by destruct (get_server_management_tools_quiet m) as (-> & _).
  - by destruct (list_servers_quiet m) as (-> & _).
  - apply connect_uncached; [done|]. intros ->. apply Hno. simpl.
    by apply bool_decide_eq_true.
  - by destruct (get_active_server_quiet m) as (-> & _).
  - apply connect_uncached; [done|]. intros ->. apply Hno. simpl.
    by apply bool_decide_eq_true.
  - by destruct (get_active_server_tools_quiet m) as (-> & _).
  - by destruct (get_all_tools_quiet m) as (-> & _).
Qed.

Lemma exec_calls_uncached X cs m :
  _server_tools (self m) !! X = None ->
  no_success X cs m ->
  _server_tools (self (exec_calls cs m)) !! X = None.
Proof.
  revert m. induction cs as [|c cs IH]; intros m Hl Hno; [done|].
  destruct Hno as [Hc Hno]. simpl. apply IH; [|done].
  by apply exec_call_uncached.
Qed.

(** C6. The cache is append-only: no run of calls removes or replaces an
    entry.  A server has no cache entry as long as no connect to it has
    succeeded since the coordinator was constructed.  And when a connect to
    a server [X] without a cache entry succeeds, the adapter was invoked once, on the session's connector;
    the list object [l] it returned is the entry of [X], so the cache holds
    exactly its [length (items l)] actions, which is the number the success
    message reports; after that, whatever calls follow (repeated connects to
    [X], connects to other servers and back), the entry of [X] is still [l]
    and no connect or switch to [X] invokes the adapter. *)
Theorem materialization_once :
  (forall m cs Y l,
     _server_tools (self m) !! Y = Some l ->
     _server_tools (self (exec_calls cs m)) !! Y = Some l) /\
  (forall X w cs,
     no_success X cs (mkMachine init w []) ->
     _server_tools (self (exec_calls cs (mkMachine init w []))) !! X = None) /\
  (forall X m n m1,
     _server_tools (self m) !! X = None ->
     connect_to_server X m = (inr (connected_message X n), m1) ->
     exists session m2 l w3,
       get_or_create_session X (log_call EvGetServerNames m)
         = (inr session, m2) /\
       create_langchain_tools adapter [connector session] (world m2)
         = (inr l, w3) /\
       adapter_calls (calls m1) = S (adapter_calls (calls m)) /\
       connect_to_server X m
         = (inr (connected_message X (length (items l))), m1) /\
       _server_tools (self m1) !! X = Some l /\
       initialized_servers (self m1) !! X = Some true /\
       forall cs,
         _server_tools (self (exec_calls cs m1)) !! X = Some l /\
         adapter_calls_for X cs m1 = 0).
Proof.
  split; [intros; by apply exec_calls_cache_mono|].
  split; [intros X w cs Hno; by apply exec_calls_uncached|].
  intros X m n m1 Hl H.
  pose proof (connect_connected_inv _ _ _ _ H) as (Hk & Ha & s & m2 & Hs & H1).
  rewrite Hl in H1. destruct H1 as (l & w3 & Hc & ->).
  exists s, m2, l, w3.
  assert (_server_tools
            (self
               {| self := set_initialized X true
                            (set_server_tools X l
                               (set_active_server (Some X) (self m2)));
                  world := w3;
                  calls := calls m2 ++ [EvCreateTools [connector s]] |})
          !! X = Some l) as Hl1 by (simpl; apply lookup_insert_eq).
  split; [done|]. split; [done|]. split; [|split; [|split; [done|split]]].
  - apply get_or_create_session_adapter_calls in Hs. simpl in *.
    rewrite !adapter_calls_app in *. simpl in *. lia.
  - rewrite connect_known_inactive by done. rewrite Hs.
    apply get_or_create_session_self in Hs. simpl in Hs.
    rewrite <- Hs in Hl. rewrite Hl. simpl. by rewrite Hc.
  - simpl. apply lookup_insert_eq.
  - intros cs. split.
    + by apply exec_calls_cache_mono.
    + by eapply adapter_calls_for_cached.
Qed.

(** A run without connects to other servers, started while [X] is active,
    leaves the coordinator and the collaborators as they are. *)
Lemma exec_calls_quiet X cs m :
  active_server (self m) = Some X ->
  Forall (fun c => targets_other X c = false) cs ->
  quiet m (exec_calls cs m).
Proof.
  revert m. induction cs as [|c cs IH]; intros m Ha Hcs; [apply quiet_refl|].
  inversion Hcs as [|? ? Hc Hcs']; subst. simpl.
  assert (quiet m (exec_call c m)) as Hq.
  { destruct c; unfold exec_call, switch_server; simpl in Hc.
    - apply initialize_quiet.
    - apply get_server_management_tools_quiet.
    - apply list_servers_quiet.
    - apply negb_false_iff, bool_decide_eq_true in Hc. subst.
      by apply connect_when_active.
    - apply get_active_server_quiet.
    - apply negb_false_iff, bool_decide_eq_true in Hc. subst.
      by apply connect_when_active.
    - apply get_active_server_tools_quiet.
    - apply get_all_tools_quiet. }
  eapply quiet_trans; [exact Hq|]. apply IH; [|done].
  destruct Hq as (-> & _). done.
Qed.


(** Session creations in a log that goes on with adapter calls only. *)
Lemma create_session_not_in (Y : string) (tl : list (Event Connector)) :
  Forall (fun ev => is_adapter_call ev = true) tl ->
  EvCreateSession Y ∉ tl.
Proof.
  intros Htl Hin. rewrite Forall_forall in Htl.
  by specialize (Htl _ Hin).
Qed.

Lemma create_session_in_cons (X Y : string) (tl : list (Event Connector)) :
  Forall (fun ev => is_adapter_call ev = true) tl ->
  EvCreateSession Y ∈ EvCreateSession X :: tl <-> Y = X.
Proof.
  intros Htl. rewrite elem_of_cons. split.
  - intros [[= ->]|Hin]; [done|]. by apply create_session_not_in in Hin.
  - intros ->. by left.
Qed.

(** The collaborator calls a connect to a known, non-active server makes:
    the registry lookup, the session lookup, and then the session creation
    exactly when the lookup raised [ValueError]. *)
Lemma connect_log X m :
  X ∈ get_server_names client (world m) ->
  active_server (self m) <> Some X ->
  exists rest,
    calls (snd (connect_to_server X m))
      = calls m ++ EvGetServerNames :: EvGetSession X :: rest /\
    forall Y,
      EvCreateSession Y ∈ rest <->
      Y = X /\
      exists msg w1,
        get_session client X (world m) = (inl (ValueError msg), w1).
Proof.
  intros Hk Ha. rewrite connect_known_inactive by done.
  rewrite get_or_create_session_eq. simpl.
  destruct (get_session client X (world m)) as [[[msg|msg]|s] w1]; simpl.
  - (* the lookup signals: the creation follows *)
    assert (forall tl Y,
              Forall (fun ev : Event Connector => is_adapter_call ev = true) tl ->
              EvCreateSession Y ∈ EvCreateSession X :: tl <->
              Y = X /\
              exists msg' (w' : World),
                (@inl PyExc Session (ValueError msg), w1)
                  = (inl (ValueError msg'), w')) as Hiff.
    { intros tl Y Htl. rewrite (create_session_in_cons _ _ _ Htl).
      split; [intros ->; eauto|by intros [-> _]]. }
    destruct (create_session client X w1) as [[e'|s] w2]; simpl.
    + exists [EvCreateSession X]. rewrite <- app_assoc. split; [done|].
      intros Y. by apply Hiff.
    + destruct (_server_tools (self m) !! X); simpl.
      * exists [EvCreateSession X]. rewrite <- app_assoc. split; [done|].
        intros Y. by apply Hiff.
      * exists [EvCreateSession X; EvCreateTools [connector s]].
        split; [|intros Y; apply Hiff; by repeat constructor].
        destruct (create_langchain_tools adapter _ _) as [[e'|l] w3]; simpl;
          by rewrite <- !app_assoc.
  - (* the lookup raises something else: nothing follows *)
    exists []. rewrite <- app_assoc. split; [done|].
    intros Y. split; [by intros ?%elem_of_nil|by intros (_ & ? & ? & [=])].
  - (* the lookup finds a session: only the adapter may follow *)
    assert (forall tl Y,
              Forall (fun ev : Event Connector => is_adapter_call ev = true) tl ->
              EvCreateSession Y ∈ tl <->
              Y = X /\
              exists msg' (w' : World),
                (@inr PyExc Session s, w1) = (inl (ValueError msg'), w'))
      as Hiff.
    { intros tl Y Htl. split; [|by intros (_ & ? & ? & [=])].
      intros Hin. by apply create_session_not_in in Hin. }
    destruct (_server_tools (self m) !! X); simpl.
    + exists []. rewrite <- app_assoc. split; [done|].
      intros Y. by apply Hiff.
    + exists [EvCreateTools [connector s]].
      split; [|intros Y; apply Hiff; by repeat constructor].
      destruct (create_langchain_tools adapter _ _) as [[e'|l] w3]; simpl;
        by rewrite <- !app_assoc.
Qed.

(** ** Further properties: the listing *)

Lemma append_assoc (s1 s2 s3 : string) :
  (s1 +:+ s2) +:+ s3 = s1 +:+ (s2 +:+ s3).
Proof.
  induction s1 as [|a s1 IH]; [reflexivity|].
  change (String a ((s1 +:+ s2) +:+ s3) = String a (s1 +:+ (s2 +:+ s3))).
  by rewrite IH.
Qed.

Lemma append_empty_r (s : string) : s +:+ "" = s.
Proof.
  induction s as [|a s IH]; [reflexivity|].
  change (String a (s +:+ "") = String a s). by rewrite IH.
Qed.

(** The loop of [list_servers] appends one line per server. *)
Lemma list_servers_loop_eq active servers :
  forall i result,
    list_servers_loop active i servers result
    = result +:+ concat_strings
                   (imap (fun k => list_servers_line active (i + k)) servers).
Proof.
  induction servers as [|server rest IH]; intros i result.
  - simpl. by rewrite append_empty_r.
  - cbn [list_servers_loop]. rewrite IH, imap_cons. cbn [concat_strings foldr].
    fold (concat_strings
            (imap ((fun k => list_servers_line active (i + k)) ∘ S) rest)).
    rewrite Nat.add_0_r.
    change (result +:+ pretty (i + 1) +:+ ". " +:+ server
              +:+ (if bool_decide (Some server = active)
                   then " (ACTIVE)" else "") +:+ newline)
      with (result +:+ list_servers_line active i server).
    rewrite append_assoc. do 3 f_equal.
    apply imap_ext. intros k x _. simpl. f_equal. lia.
Qed.

(** X1. [list_servers] returns the fixed text when the registry is empty;
    otherwise the header line followed by one line per registered server, in
    registry order and numbered from 1, the marker " (ACTIVE)" standing on
    the lines whose name is the active server and on no other.  It writes
    no attribute and calls the client for the registry only. *)
Theorem list_servers_text m :
  let servers := get_server_names client (world m) in
  list_servers m =
    (inr (match servers with
          | [] => "No MCP servers are currently defined."
          | _ :: _ =>
              "Available MCP servers:" +:+ newline
                +:+ concat_strings
                      (imap (list_servers_line (active_server (self m)))
                         servers)
          end),
     log_call EvGetServerNames m).
Proof.
  intros servers. unfold list_servers. run_M. fold servers.
  destruct servers as [|server rest] eqn:E; [reflexivity|].
  change (negb (list_truthy (server :: rest))) with false. cbv beta iota.
  cbn [self]. rewrite list_servers_loop_eq.
  unfold log_call. by rewrite append_assoc.
Qed.

(** ** Further properties: what a call can do *)

Lemma get_or_create_session_calls Y m r m2 :
  get_or_create_session Y m = (r, m2) ->
  calls m2 = calls m ++ [EvGetSession Y] \/
  calls m2 = calls m ++ [EvGetSession Y; EvCreateSession Y].
Proof.
  rewrite get_or_create_session_eq.
  destruct (get_session client Y (world m)) as [[e|s] w1].
  - destruct (isinstance_ValueError e).
    + destruct (create_session client Y w1) as [r' w2].
      intros [= <- <-]. by right.
    + intros [= <- <-]. by left.
  - intros [= <- <-]. by left.
Qed.

(** The five ways through [connect_to_server]. *)
Lemma connect_cases Y m :
  let r := connect_to_server Y m in
  let m1 := log_call EvGetServerNames m in
  (snd r = m1 /\
   (fst r = inr (not_found_message Y (get_server_names client (world m))) \/
    fst r = inr (already_connected_message Y))) \/
  (exists e m2,
     get_or_create_session Y m1 = (inl e, m2) /\
     r = (inr (failed_message Y e), m2)) \/
  (exists session m2 l,
     get_or_create_session Y m1 = (inr session, m2) /\
     _server_tools (self m) !! Y = Some l /\
     r = (inr (connected_message Y (length (items l))), activate Y m2)) \/
  (exists session m2 e w3,
     get_or_create_session Y m1 = (inr session, m2) /\
     _server_tools (self m) !! Y = None /\
     create_langchain_tools adapter [connector session] (world m2)
       = (inl e, w3) /\
     r = (inr (failed_message Y e),
          mkMachine (set_active_server (Some Y) (self m)) w3
            (calls m2 ++ [EvCreateTools [connector session]]))) \/
  (exists session m2 l w3,
     get_or_create_session Y m1 = (inr session, m2) /\
     _server_tools (self m) !! Y = None /\
     create_langchain_tools adapter [connector session] (world m2)
       = (inr l, w3) /\
     r = (inr (connected_message Y (length (items l))),
          mkMachine
            (set_initialized Y true
               (set_server_tools Y l (set_active_server (Some Y) (self m))))
            w3 (calls m2 ++ [EvCreateTools [connector session]]))).
Proof.
  intros r m1. subst r m1.
  destruct (decide (Y ∈ get_server_names client (world m))) as [Hk|Hk];
    [|left; rewrite connect_unknown by done; split; [done|by left]].
  destruct (decide (active_server (self m) = Some Y)) as [Ha|Ha];
    [left; rewrite connect_active by done; split; [done|by right]|].
  right. rewrite connect_known_inactive by done.
  destruct (get_or_create_session _ _) as [[e|session] m2] eqn:Hs;
    [left; eauto|right].
  pose proof (get_or_create_session_self _ _ _ _ Hs) as Hself.
  simpl in Hself. rewrite Hself.
  destruct (_server_tools (self m) !! Y) as [l|] eqn:Hl; [left; eauto 6|].
  right. simpl.
  destruct (create_langchain_tools adapter _ _) as [[e|l] w3] eqn:Hc;
    [left|right]; eauto 10.
Qed.

(** The frame of the read-only methods. *)
Lemma readonly_frame c m :
  is_connect c = false ->
  self (exec_call c m) = self m /\
  world (exec_call c m) = world m /\
  (calls (exec_call c m) = calls m \/
   calls (exec_call c m) = calls m ++ [EvGetServerNames]).
Proof.
  intros Hc. destruct c; try discriminate; unfold exec_call.
  - by repeat split; right.
  - by repeat split; left.
  - unfold list_servers. run_M.
    destruct (list_truthy _); by repeat split; right.
  - unfold get_active_server. run_M.
    destruct (name_truthy _); by repeat split; left.
  - rewrite get_active_server_tools_eq. by repeat split; left.
  - rewrite get_all_tools_eq. by repeat split; left.
Qed.

(** X2. The methods other than [connect_to_server] and [switch_server] are
    read-only: over any run of such calls no attribute is written, the
    collaborators' state stays as it is, and the only collaborator calls
    made are registry lookups, at most one per call. *)
Theorem readonly_calls_frame cs m :
  Forall (fun c => is_connect c = false) cs ->
  self (exec_calls cs m) = self m /\
  world (exec_calls cs m) = world m /\
  exists k,
    k <= length cs /\
    calls (exec_calls cs m) = calls m ++ replicate k EvGetServerNames.
Proof.
  revert m. induction cs as [|c cs IH]; intros m Hcs.
  - repeat split. exists 0. simpl. by rewrite app_nil_r.
  - inversion Hcs as [|? ? Hc Hcs']; subst. simpl.
    destruct (IH (exec_call c m) Hcs') as (-> & -> & k & Hk & ->).
    destruct (readonly_frame c m Hc) as (-> & -> & [-> | ->]).
    + repeat split. exists k. split; [simpl; lia|done].
    + repeat split. exists (S k). split; [simpl; lia|].
      by rewrite <- app_assoc.
Qed.

(** X3. [connect_to_server] never raises: whatever the collaborators do, it
    returns a text, and the text is one of the four status messages. *)
Theorem connect_returns_status server_name m :
  exists txt,
    fst (connect_to_server server_name m) = inr txt /\
    (txt = not_found_message server_name (get_server_names client (world m)) \/
     txt = already_connected_message server_name \/
     (exists n, txt = connected_message server_name n) \/
     (exists e, txt = failed_message server_name e)).
Proof.
  destruct (connect_cases server_name m)
    as [[_ [H|H]]|[(e & m2 & _ & H)|[(s & m2 & l & _ & _ & H)|
        [(s & m2 & e & w3 & _ & _ & _ & H)|(s & m2 & l & w3 & _ & _ & _ & H)]]]];
    rewrite H; eauto 10.
Qed.

(** A connect changes the active server to the requested name or not at
    all, and touches the cache and the flags at the requested name only. *)
Lemma connect_touches Y m :
  let s' := self (snd (connect_to_server Y m)) in
  (active_server s' = active_server (self m) \/ active_server s' = Some Y) /\
  (forall X, X <> Y ->
     _server_tools s' !! X = _server_tools (self m) !! X /\
     initialized_servers s' !! X = initialized_servers (self m) !! X).
Proof.
  intros s'. subst s'.
  destruct (connect_cases Y m)
    as [[H _]|[(e & m2 & Hs & H)|[(s & m2 & l & Hs & _ & H)|
        [(s & m2 & e & w3 & Hs & _ & _ & H)|(s & m2 & l & w3 & Hs & _ & _ & H)]]]];
    rewrite H; try (apply get_or_create_session_self in Hs; simpl in Hs);
    unfold activate; simpl; try rewrite Hs.
  - split; [by left|done].
  - split; [by left|done].
  - split; [by right|done].
  - split; [by right|done].
  - split; [by right|]. intros X HX. by rewrite !lookup_insert_ne.
Qed.


(** ** Further properties: invariants of runs *)

Lemma connect_flags_match Y m :
  flags_match (self m) -> flags_match (self (snd (connect_to_server Y m))).
Proof.
  unfold flags_match. intros Hf.
  destruct (connect_cases Y m)
    as [[H _]|[(e & m2 & Hs & H)|[(s & m2 & l & Hs & _ & H)|
        [(s & m2 & e & w3 & Hs & _ & _ & H)|(s & m2 & l & w3 & Hs & _ & _ & H)]]]];
    rewrite H; try (apply get_or_create_session_self in Hs; simpl in Hs);
    unfold activate; simpl; try rewrite Hs; try done.
  by rewrite fmap_insert, Hf.
Qed.

Lemma exec_call_flags_match c m :
  flags_match (self m) -> flags_match (self (exec_call c m)).
Proof.
  intros Hf. destruct (is_connect c) eqn:Hc.
  - destruct c; try discriminate; unfold exec_call, switch_server;
      by apply connect_flags_match.
  - by destruct (readonly_frame c m Hc) as (-> & _).
Qed.

(** X4. The initialized flags mirror the tool cache: a freshly constructed
    coordinator has both empty, and every run of calls keeps the flags equal
    to the cache's keys, each flagged [True]. *)
Theorem flags_mirror_cache :
  flags_match (@init Tool) /\
  (forall cs m,
     flags_match (self m) -> flags_match (self (exec_calls cs m))) /\
  (forall cs w log X,
     initialized_servers (self (exec_calls cs (mkMachine init w log))) !! X
       = Some true <->
     is_Some (_server_tools (self (exec_calls cs (mkMachine init w log))) !! X)).
Proof.
  assert (flags_match (@init Tool)) as Hinit.
  { unfold flags_match, init. simpl. by rewrite fmap_empty. }
  assert (forall cs m,
            flags_match (self m) -> flags_match (self (exec_calls cs m)))
    as Hruns.
  { induction cs as [|c cs IH]; intros m Hf; [done|].
    simpl. apply IH. by apply exec_call_flags_match. }
  split; [done|]. split; [done|].
  intros cs w log X.
  pose proof (Hruns cs (mkMachine init w log) Hinit) as Hf.
  unfold flags_match in Hf. rewrite Hf, lookup_fmap.
  destruct (_server_tools _ !! X); simpl; split; intros H;
    eauto; try done; by destruct H.
Qed.

Lemma exec_call_provenance c m :
  (active_server (self (exec_call c m)) = active_server (self m) \/
   exists Y, targets Y c = true /\
             active_server (self (exec_call c m)) = Some Y) /\
  (forall X,
     _server_tools (self (exec_call c m)) !! X = _server_tools (self m) !! X \/
     targets X c = true).
Proof.
  destruct (is_connect c) eqn:Hc.
  - destruct c as [| | |Y| |Y| |]; try discriminate;
      unfold exec_call, switch_server;
      destruct (connect_touches Y m) as [Ha Hother];
      (split;
       [destruct Ha as [Ha|Ha]; [by left|right; exists Y; split; [|done]];
        simpl; by apply bool_decide_eq_true
       |intros X; destruct (decide (X = Y)) as [->|Hne];
        [right; simpl; by apply bool_decide_eq_true
        |left; by apply Hother]]).
  - destruct (readonly_frame c m Hc) as (-> & _). split; by left.
Qed.

(** X5. Only connects and switches move the coordinator: after any run of
    calls the active server is the one before the run or a name some connect
    or switch of the run asked for, and a cache entry differs from the one
    before the run only at such a name. *)
Theorem run_provenance cs m :
  (active_server (self (exec_calls cs m)) = active_server (self m) \/
   exists Y, Exists (fun c => targets Y c = true) cs /\
             active_server (self (exec_calls cs m)) = Some Y) /\
  (forall X,
     _server_tools (self (exec_calls cs m)) !! X = _server_tools (self m) !! X \/
     Exists (fun c => targets X c = true) cs).
Proof.
  revert m. induction cs as [|c cs IH]; intros m; [split; by left|].
  simpl. destruct (IH (exec_call c m)) as [IHa IHc].
  destruct (exec_call_provenance c m) as [Ha Hc]. split.
  - destruct IHa as [IHa|(Y & HY & IHa)].
    + rewrite IHa. destruct Ha as [Ha|(Y & HY & Ha)]; [by left|].
      right. exists Y. split; [by apply Exists_cons_hd|done].
    + right. exists Y. split; [by apply Exists_cons_tl|done].
  - intros X. destruct (IHc X) as [IHX|IHX]; [|right; by apply Exists_cons_tl].
    rewrite IHX. destruct (Hc X) as [HX|HX]; [by left|].
    right. by apply Exists_cons_hd.
Qed.

(** ** Further properties: what a connect exposes *)

(** X6. Connecting to a known, non-active server that already has a cache
    entry reuses the entry whatever session the client hands out, a newly
    created one included: the adapter is not invoked, the text reports the
    length of the cached list, and the only attribute written is the active
    server. *)
Theorem reconnect_reuses_cache X m session m2 l :
  X ∈ get_server_names client (world m) ->
  active_server (self m) <> Some X ->
  get_or_create_session X (log_call EvGetServerNames m) = (inr session, m2) ->
  _server_tools (self m) !! X = Some l ->
  let r := connect_to_server X m in
  fst r = inr (connected_message X (length (items l))) /\
  self (snd r) = set_active_server (Some X) (self m) /\
  world (snd r) = world m2 /\
  adapter_calls (calls (snd r)) = adapter_calls (calls m).
Proof.
  intros Hk Ha Hs Hl r. subst r.
  rewrite connect_known_inactive by done. rewrite Hs.
  pose proof (get_or_create_session_self _ _ _ _ Hs) as Hself.
  apply get_or_create_session_adapter_calls in Hs.
  simpl in Hself, Hs. rewrite Hself, Hl. unfold activate. simpl.
  rewrite Hself, Hs, adapter_calls_app. simpl. repeat split. lia.
Qed.

(** A "Connected" answer comes with a cache entry whose length it reports. *)
Lemma connect_connected_entry X m n m1 :
  connect_to_server X m = (inr (connected_message X n), m1) ->
  exists l,
    _server_tools (self m1) !! X = Some l /\
    connect_to_server X m = (inr (connected_message X (length (items l))), m1).
Proof.
  intros H.
  destruct (connect_cases X m)
    as [[_ [E|E]]|[(e & m2 & _ & E)|[(s & m2 & l & Hs & Hl & E)|
        [(s & m2 & e & w3 & _ & _ & _ & E)|(s & m2 & l & w3 & Hs & Hl & Hc & E)]]]].
  - rewrite H in E. apply (inj inr) in E.
    by destruct (connected_not_not_found _ _ _ _ E).
  - rewrite H in E. apply (inj inr) in E.
    by destruct (connected_not_already _ _ _ E).
  - rewrite H in E. apply returned_eq in E as [E _].
    by destruct (connected_not_failed _ _ _ _ E).
  - exists l. pose proof E as E'. rewrite H in E'.
    apply returned_eq in E' as [_ ->]. split; [|done].
    apply get_or_create_session_self in Hs. simpl in Hs.
    unfold activate. simpl. by rewrite Hs.
  - rewrite H in E. apply returned_eq in E as [E _].
    by destruct (connected_not_failed _ _ _ _ E).
  - exists l. pose proof E as E'. rewrite H in E'.
    apply returned_eq in E' as [_ ->]. split; [|done].
    simpl. apply lookup_insert_eq.
Qed.

(** X7. After a connect to a non-empty name [X] has answered "Connected",
    the cache has an entry for [X]; the number in the answer is the length
    of that list; [get_active_server] names [X];
    [get_active_server_tools] returns the cached list object itself, not a
    copy; and [get_all_tools] is the management tools followed by its
    elements. *)
Theorem connect_exposes_tools X m n m1 :
  X <> "" ->
  connect_to_server X m = (inr (connected_message X n), m1) ->
  exists l,
    _server_tools (self m1) !! X = Some l /\
    connect_to_server X m = (inr (connected_message X (length (items l))), m1) /\
    get_active_server m1
      = (inr ("Currently active MCP server: " +:+ X), m1) /\
    get_active_server_tools m1 = (inr (Alias l), m1) /\
    fst (get_all_tools m1) = inr (management_tools ++ items l).
Proof.
  intros Hne H.
  pose proof (connect_connected_active _ _ _ _ H) as Ha.
  assert (name_truthy (Some X) = true) as Ht by (by destruct X).
  destruct (connect_connected_entry _ _ _ _ H) as (l & Hl & E).
  exists l. split; [done|]. split; [done|]. split; [|split].
  - unfold get_active_server. run_M. by rewrite Ha, Ht.
  - rewrite get_active_server_tools_eq, Ha, Ht. simpl. by rewrite Hl.
  - rewrite get_all_tools_eq, Ha, Ht. unfold cached_for_active.
    by rewrite Ha, Hl.
Qed.

(** X8. After a connect to [X] has answered "Connected", and with [X] still
    in the registry, [list_servers] prints the header and one numbered line
    per server, marking the lines named [X] and no other.  This includes the
    empty name, which [get_active_server] does not report as active. *)
Theorem list_servers_after_connect X m n m1 :
  connect_to_server X m = (inr (connected_message X n), m1) ->
  X ∈ get_server_names client (world m1) ->
  fst (list_servers m1) =
    inr ("Available MCP servers:" +:+ newline
           +:+ concat_strings
                 (imap (fun i server =>
                          pretty (i + 1) +:+ ". " +:+ server
                            +:+ (if bool_decide (server = X)
                                 then " (ACTIVE)" else "")
                            +:+ newline)
                    (get_server_names client (world m1)))).
Proof.
  intros H Hk.
  pose proof (connect_connected_active _ _ _ _ H) as Ha.
  unfold list_servers. run_M.
  destruct (get_server_names client (world m1)) as [|server rest] eqn:E;
    [by apply elem_of_nil in Hk|].
  change (negb (list_truthy (server :: rest))) with false. cbv beta iota.
  cbn [self fst]. rewrite list_servers_loop_eq, append_assoc.
  do 4 f_equal. apply imap_ext. intros i server' _.
  unfold list_servers_line. rewrite Ha.
  rewrite (bool_decide_ext (Some server' = Some X) (server' = X)); [done|].
  split; [by intros [= ->]|by intros ->].
Qed.

(** X9. A connect to a non-empty name [X] that acquires the session and
    then fails in the adapter answers "Failed", yet [get_active_server]
    names [X] afterwards, and [get_all_tools] offers the management tools
    only, whatever server was active before. *)
Theorem failed_connect_shows_active X m session m2 e w3 :
  X <> "" ->
  X ∈ get_server_names client (world m) ->
  active_server (self m) <> Some X ->
  get_or_create_session X (log_call EvGetServerNames m) = (inr session, m2) ->
  _server_tools (self m) !! X = None ->
  create_langchain_tools adapter [connector session] (world m2) = (inl e, w3) ->
  let r := connect_to_server X m in
  fst r = inr (failed_message X e) /\
  get_active_server (snd r)
    = (inr ("Currently active MCP server: " +:+ X), snd r) /\
  fst (get_all_tools (snd r)) = inr management_tools.
Proof.
  intros Hne Hk Ha Hs Hl Hc r. subst r.
  rewrite (connect_materialization_failed _ _ _ _ _ _ Hk Ha Hs Hl Hc). simpl.
  split; [done|]. split.
  - unfold get_active_server. run_M. by destruct X.
  - rewrite get_all_tools_eq. unfold cached_for_active. simpl.
    rewrite Hl. by destruct X.
Qed.

(** ** Further properties: the collaborator calls *)

Lemma connect_log_growth Y m :
  exists new,
    calls (snd (connect_to_server Y m)) = calls m ++ new /\
    length new <= 4 /\
    adapter_calls new <= 1 /\
    Forall one_connector new /\
    size (_server_tools (self (snd (connect_to_server Y m))))
      <= size (_server_tools (self m)) + adapter_calls new.
Proof.
  destruct (connect_cases Y m)
    as [[H _]|[(e & m2 & Hs & H)|[(s & m2 & l & Hs & _ & H)|
        [(s & m2 & e & w3 & Hs & _ & _ & H)|(s & m2 & l & w3 & Hs & Hl & _ & H)]]]];
    rewrite H; clear H;
    try (pose proof (get_or_create_session_self _ _ _ _ Hs) as Hself;
         apply get_or_create_session_calls in Hs; simpl in Hs, Hself);
    unfold activate; simpl; try rewrite Hself;
    try rewrite (map_size_insert_None _ _ _ Hl);
    try (destruct Hs as [-> | ->]); rewrite <- ?app_assoc;
    eexists; (split; [reflexivity|]); simpl;
    repeat split; try lia; by repeat constructor.
Qed.

Lemma exec_call_log_growth c m :
  exists new,
    calls (exec_call c m) = calls m ++ new /\
    length new <= 4 /\
    adapter_calls new <= 1 /\
    Forall one_connector new /\
    size (_server_tools (self (exec_call c m)))
      <= size (_server_tools (self m)) + adapter_calls new.
Proof.
  destruct (is_connect c) eqn:Hc.
  - destruct c; try discriminate; unfold exec_call, switch_server;
      apply connect_log_growth.
  - destruct (readonly_frame c m Hc) as (-> & _ & [-> | ->]).
    + exists []. rewrite app_nil_r. simpl. repeat split; try lia. constructor.
    + exists [EvGetServerNames]. simpl. repeat split; try lia.
      by repeat constructor.
Qed.

(** X10. Every call only appends to the collaborator calls made so far: at
    most four calls, among them at most one adapter call, and the adapter is
    always handed exactly one connector.  Hence over any run every adapter
    call of the log has one connector. *)
Theorem call_log_growth :
  (forall c m,
     exists new,
       calls (exec_call c m) = calls m ++ new /\
       length new <= 4 /\
       adapter_calls new <= 1 /\
       Forall one_connector new) /\
  (forall cs m,
     Forall one_connector (calls m) ->
     Forall one_connector (calls (exec_calls cs m))).
Proof.
  split.
  - intros c m.
    destruct (exec_call_log_growth c m) as (new & ? & ? & ? & ? & _). eauto.
  - induction cs as [|c cs IH]; intros m Hm; [done|].
    simpl. apply IH.
    destruct (exec_call_log_growth c m) as (new & -> & _ & _ & Hnew & _).
    by apply Forall_app.
Qed.

(** X11. Every cache entry was paid for by an adapter call: over any run,
    the cache grows by no more entries than the adapter was invoked, so a
    coordinator started empty never holds more entries than the log has
    adapter calls. *)
Theorem cache_size_bounded cs m :
  size (_server_tools (self m)) <= adapter_calls (calls m) ->
  size (_server_tools (self (exec_calls cs m)))
    <= adapter_calls (calls (exec_calls cs m)).
Proof.
  revert m. induction cs as [|c cs IH]; intros m Hm; [done|].
  simpl. apply IH.
  destruct (exec_call_log_growth c m) as (new & -> & _ & _ & _ & Hsize).
  rewrite adapter_calls_app. lia.
Qed.

(** ** The sticky failure *)

(** A connect that leaves [X] active wrote nothing and did not reach the
    adapter. *)
Lemma connect_keeps_active X Y m :
  active_server (self m) = Some X ->
  active_server (self (snd (connect_to_server Y m))) = Some X ->
  self (snd (connect_to_server Y m)) = self m /\
  adapter_calls (calls (snd (connect_to_server Y m)))
    = adapter_calls (calls m).
Proof.
  intros Ha Ha'.
  destruct (decide (Y = X)) as [->|Hne];
    [by destruct (connect_when_active _ _ Ha) as (? & _ & ?)|].
  destruct (connect_cases Y m)
    as [[H _]|[(e & m2 & Hs & H)|[(s & m2 & l & Hs & _ & H)|
        [(s & m2 & e & w3 & Hs & _ & _ & H)|(s & m2 & l & w3 & Hs & _ & _ & H)]]]];
    rewrite H in Ha' |- *; clear H; unfold activate in *; simpl in *;
    try (injection Ha' as ->; done).
  - split; [done|]. rewrite adapter_calls_app. simpl. lia.
  - pose proof (get_or_create_session_self _ _ _ _ Hs) as Hself.
    apply get_or_create_session_adapter_calls in Hs. simpl in Hs, Hself.
    split; [done|]. rewrite Hs, adapter_calls_app. simpl. lia.
Qed.

Lemma exec_call_keeps_active X c m :
  active_server (self m) = Some X ->
  active_server (self (exec_call c m)) = Some X ->
  self (exec_call c m) = self m /\
  adapter_calls (calls (exec_call c m)) = adapter_calls (calls m).
Proof.
  intros Ha Ha'. destruct (is_connect c) eqn:Hc.
  - destruct c; try discriminate; unfold exec_call, switch_server in *;
      by apply (connect_keeps_active X).
  - destruct (readonly_frame c m Hc) as (-> & _ & [-> | ->]);
      [done|]. split; [done|]. rewrite adapter_calls_app. simpl. lia.
Qed.

Lemma exec_calls_keep_active X cs m :
  active_server (self m) = Some X ->
  stays_active X cs m ->
  self (exec_calls cs m) = self m /\
  adapter_calls (calls (exec_calls cs m)) = adapter_calls (calls m).
Proof.
  revert m. induction cs as [|c cs IH]; intros m Ha Hcs; [done|].
  destruct Hcs as [Ha' Hcs]. simpl.
  destruct (exec_call_keeps_active X c m Ha Ha') as [Hself Hcalls].
  destruct (IH (exec_call c m) Ha' Hcs) as [-> ->]. done.
Qed.

(** While [X] is active, a connect to another name makes that name active
    exactly when the name is registered and its session is acquired. *)
Lemma connect_other_activates X Y m :
  active_server (self m) = Some X ->
  Y <> X ->
  active_server (self (snd (connect_to_server Y m))) = Some Y <->
  Y ∈ get_server_names client (world m) /\
  exists session m2,
    get_or_create_session Y (log_call EvGetServerNames m) = (inr session, m2).
Proof.
  intros Ha Hne.
  assert (active_server (self m) <> Some Y) as Hina
    by (rewrite Ha; by intros [= ->]).
  destruct (decide (Y ∈ get_server_names client (world m))) as [Hk|Hk].
  - rewrite connect_known_inactive by done.
    destruct (get_or_create_session _ _) as [[e|session] m2] eqn:Hs.
    + apply get_or_create_session_self in Hs. simpl in Hs. simpl.
      rewrite Hs. split; [by intros ?|by intros (_ & ? & ? & [=])].
    + split; [eauto|]. intros _.
      destruct (_server_tools (self m2) !! Y); [done|].
      by destruct (create_langchain_tools adapter _ _) as [[e|l] w3].
  - rewrite connect_unknown by done. simpl.
    split; [by intros ?|by intros [? _]].
Qed.


End Coordinator.

(** ** The session-not-found signal *)


(** ** The properties on the concrete collaborators *)

#[local] Abbreviation demo_connect :=
  (connect_to_server Demo.connector Demo.client Demo.adapter).

#[local] Abbreviation demo_session :=
  (get_or_create_session (Connector := Demo.Connector) (Tool := Demo.Tool)
     Demo.client).

Ltac known := apply (bool_decide_unpack _); vm_compute; exact I.

Lemma connect_unknown_server_witness :
  ("zz" ∉ get_server_names Demo.client (world Demo.m0)) /\
  (let r := demo_connect "zz" Demo.m0 in
   fst r = inr "Server 'zz' not found. Available servers: a, b, c, d, " /\
   active_server (self (snd r)) = None /\
   _server_tools (self (snd r)) = ∅ /\
   initialized_servers (self (snd r)) = ∅ /\
   world (snd r) = []).
Proof.
  assert ("zz" ∉ get_server_names Demo.client (world Demo.m0)) as H by known.
  split; [exact H|].
  exact (connect_unknown_server Demo.connector Demo.client Demo.adapter
           "zz" Demo.m0 H).
Defined.

Lemma connect_twice_already_connected_witness :
  let m1 := snd (demo_connect "a" Demo.m0) in
  (demo_connect "a" Demo.m0) = (inr (connected_message "a" 2), m1) /\
  "a" ∈ get_server_names Demo.client (world m1) /\
  fst (demo_connect "a" m1) = inr "Already connected to MCP server 'a'" /\
  self (snd (demo_connect "a" m1)) = self m1.
Proof.
  set (m1 := snd (demo_connect "a" Demo.m0)).
  assert (demo_connect "a" Demo.m0 = (inr (connected_message "a" 2), m1))
    as H1 by (vm_compute; reflexivity).
  assert ("a" ∈ get_server_names Demo.client (world m1)) as Hk by known.
  split; [exact H1|]. split; [exact Hk|].
  destruct (connect_twice_already_connected Demo.connector Demo.client
              Demo.adapter "a" Demo.m0 _ 2 m1 H1 (or_introl eq_refl) Hk)
    as (Htxt & Hself & _).
  split; [exact Htxt|exact Hself].
Defined.

(** C2, as stated, fails: connecting to "c" acquires the session, the
    adapter raises, the failure message is returned, and the active server
    has changed from none to "c". *)
Lemma connect_failure_changes_active_cex :
  let m := Demo.m0 in
  let r := demo_connect "c" m in
  "c" ∈ get_server_names Demo.client (world m) /\
  calls (snd r)
    = [EvGetServerNames; EvGetSession "c"; EvCreateSession "c";
       EvCreateTools ["c"]] /\
  create_langchain_tools Demo.adapter ["c"] ["c"]
    = (inl (OtherException "tools/list failed"), ["c"]) /\
  fst r = inr "Failed to connect to server 'c': tools/list failed" /\
  active_server (self m) = None /\
  active_server (self (snd r)) = Some "c" /\
  active_server (self (snd r)) <> active_server (self m).
Proof.
  repeat split; try (vm_compute; reflexivity); known.
Qed.

Lemma connect_failure_effects_witness :
  (* creation refused: nothing changes *)
  (demo_connect "b" Demo.m0
     = (inr "Failed to connect to server 'b': connection refused",
        snd (demo_session "b" (log_call EvGetServerNames Demo.m0))) /\
   self (snd (demo_connect "b" Demo.m0)) = self Demo.m0) /\
  (* lookup fault other than ValueError: nothing changes *)
  (demo_connect "d" Demo.m0
     = (inr "Failed to connect to server 'd': client is closed",
        snd (demo_session "d" (log_call EvGetServerNames Demo.m0))) /\
   self (snd (demo_connect "d" Demo.m0)) = self Demo.m0) /\
  (* adapter fault: the cache is unchanged, the active server is not *)
  (fst (demo_connect "c" Demo.m0)
     = inr "Failed to connect to server 'c': tools/list failed" /\
   active_server (self (snd (demo_connect "c" Demo.m0))) = Some "c" /\
   _server_tools (self (snd (demo_connect "c" Demo.m0))) = ∅).
Proof.
  assert (forall X,
            demo_session X (log_call EvGetServerNames Demo.m0)
            = (fst (demo_session X (log_call EvGetServerNames Demo.m0)),
               snd (demo_session X (log_call EvGetServerNames Demo.m0))))
    as Hs by (intros X; apply surjective_pairing).
  assert ("b" ∈ get_server_names Demo.client (world Demo.m0)) as Hkb by known.
  assert ("c" ∈ get_server_names Demo.client (world Demo.m0)) as Hkc by known.
  assert ("d" ∈ get_server_names Demo.client (world Demo.m0)) as Hkd by known.
  assert (forall X : string, active_server (self Demo.m0) <> Some X) as Ha
    by (intros X; vm_compute; discriminate).
  split; [|split].
  - destruct (proj1 (connect_failure_effects Demo.connector Demo.client
                       Demo.adapter "b" Demo.m0 _ _ Hkb (Ha "b") (Hs "b"))
                (OtherException "connection refused") eq_refl)
      as (_ & Hr & Hself).
    split; [exact Hr|]. rewrite Hr. exact Hself.
  - destruct (proj1 (connect_failure_effects Demo.connector Demo.client
                       Demo.adapter "d" Demo.m0 _ _ Hkd (Ha "d") (Hs "d"))
                (OtherException "client is closed") eq_refl)
      as (_ & Hr & Hself).
    split; [exact Hr|]. rewrite Hr. exact Hself.
  - destruct (proj2 (connect_failure_effects Demo.connector Demo.client
                       Demo.adapter "c" Demo.m0 _ _ Hkc (Ha "c") (Hs "c"))
                "c" (OtherException "tools/list failed") ["c"]
                eq_refl eq_refl eq_refl)
      as (Htxt & Hact & Hcache & _).
    split; [exact Htxt|]. split; [exact Hact|exact Hcache].
Defined.

Lemma materialization_failure_sets_active_witness :
  let r := demo_connect "c" Demo.m0 in
  "c" ∈ get_server_names Demo.client (world Demo.m0) /\
  active_server (self Demo.m0) <> Some "c" /\
  _server_tools (self Demo.m0) !! "c" = None /\
  fst r = inr "Failed to connect to server 'c': tools/list failed" /\
  active_server (self (snd r)) = Some "c" /\
  _server_tools (self (snd r)) !! "c" = None /\
  get_active_server_tools (snd r) = (inr (Fresh []), snd r).
Proof.
  assert ("c" ∈ get_server_names Demo.client (world Demo.m0)) as Hk by known.
  assert (active_server (self Demo.m0) <> Some "c") as Ha
    by (vm_compute; discriminate).
  assert (_server_tools (self Demo.m0) !! "c" = None) as Hl
    by (vm_compute; reflexivity).
  split; [exact Hk|]. split; [exact Ha|]. split; [exact Hl|].
  exact (materialization_failure_sets_active Demo.connector Demo.client
           Demo.adapter "c" Demo.m0 "c"
           (mkMachine init ["c"]
              [EvGetServerNames; EvGetSession "c"; EvCreateSession "c"])
           (OtherException "tools/list failed") ["c"]
           Hk Ha eq_refl Hl eq_refl).
Defined.

Lemma materialization_once_witness :
  let m1 := snd (demo_connect "a" Demo.m0) in
  let l := mkPyList 1 [Adapted "read_file"; Adapted "write_file"] in
  _server_tools (self Demo.m0) !! "a" = None /\
  (demo_connect "a" Demo.m0) = (inr (connected_message "a" 2), m1) /\
  _server_tools (self m1) !! "a" = Some l /\
  adapter_calls (calls m1) = 1 /\
  (forall cs,
     _server_tools (self (exec_calls Demo.connector Demo.client Demo.adapter
                            cs m1)) !! "a" = Some l /\
     adapter_calls_for Demo.connector Demo.client Demo.adapter "a" cs m1 = 0).
Proof.
  set (m1 := snd (demo_connect "a" Demo.m0)).
  assert (_server_tools (self Demo.m0) !! "a" = None) as Hl
    by (vm_compute; reflexivity).
  assert (demo_connect "a" Demo.m0 = (inr (connected_message "a" 2), m1))
    as H1 by (vm_compute; reflexivity).
  destruct (proj2 (proj2 (materialization_once Demo.connector Demo.client
                            Demo.adapter)) "a" Demo.m0 2 m1 Hl H1)
    as (s & m2 & l & w3 & _ & _ & _ & _ & Hentry & _ & Hlater).
  assert (Some l = Some (mkPyList 1 [Adapted "read_file"; Adapted "write_file"]))
    as [= ->] by (rewrite <- Hentry; vm_compute; reflexivity).
  split; [exact Hl|]. split; [exact H1|]. split; [exact Hentry|].
  split; [vm_compute; reflexivity|exact Hlater].
Defined.

(** C7. With the empty string registered, connected and one tool cached for
    it, [get_all_tools] returns the four management actions only, not the
    four followed by the cached tool: the truthiness test of
    [get_active_server_tools] takes the empty name for no active server,
    while [connect_to_server] and [list_servers] treat it as the active
    one. *)
Lemma get_all_tools_empty_name_diverges :
  let m1 := snd (demo_connect "" Demo.m0) in
  (demo_connect "" Demo.m0)
    = (inr "Connected to MCP server ''. 1 tools are now available.", m1) /\
  active_server (self m1) = Some "" /\
  cached_for_active (self m1) = [Adapted "ping"] /\
  fst (get_all_tools m1) = inr management_tools /\
  fst (get_all_tools m1)
    <> inr (management_tools ++ cached_for_active (self m1)) /\
  length (management_tools (Tool := Demo.Tool))
    <> 4 + length (cached_for_active (self m1)).
Proof.
  repeat split; try (vm_compute; reflexivity); vm_compute; discriminate.
Qed.

Lemma get_all_tools_contents_witness :
  let m1 := snd (demo_connect "a" Demo.m0) in
  active_server (self m1) = Some "a" /\
  cached_for_active (self m1) = [Adapted "read_file"; Adapted "write_file"] /\
  fst (get_all_tools m1)
    = inr (management_tools ++ [Adapted "read_file"; Adapted "write_file"]).
Proof.
  set (m1 := snd (demo_connect "a" Demo.m0)).
  assert (active_server (self m1) = Some "" -> cached_for_active (self m1) = [])
    as Hne by (vm_compute; discriminate).
  destruct (proj1 (get_all_tools_contents m1) Hne) as (Heq & _).
  split; [vm_compute; reflexivity|]. split; [vm_compute; reflexivity|].
  by rewrite Heq.
Defined.



#[local] Abbreviation pair_connect :=
  (connect_to_server Demo.connector Demo.pair_client Demo.failing_adapter).


Lemma empty_name_reads_as_inactive_witness :
  let m1 := snd (demo_connect "" Demo.m0) in
  (demo_connect "" Demo.m0) = (inr (connected_message "" 1), m1) /\
  active_server (self m1) = Some "" /\
  fst (get_active_server m1)
    = inr ("No MCP server is currently active. "
           +:+ "Use connect_to_mcp_server to connect to a server.") /\
  fst (get_active_server_tools m1) = inr (Fresh []).
Proof.
  set (m1 := snd (demo_connect "" Demo.m0)).
  assert (demo_connect "" Demo.m0 = (inr (connected_message "" 1), m1))
    as H1 by (vm_compute; reflexivity).
  destruct (empty_name_reads_as_inactive Demo.connector Demo.client
              Demo.adapter Demo.m0 1 m1 H1)
    as (_ & Hact & Hmsg & Htools).
  split; [exact H1|]. split; [exact Hact|].
  split; [by rewrite Hmsg|by rewrite Htools].
Defined.

(** ** The further properties on the concrete collaborators *)

#[local] Abbreviation demo_exec :=
  (exec_calls Demo.connector Demo.client Demo.adapter).

Lemma readonly_calls_frame_witness :
  let m1 := snd (demo_connect "a" Demo.m0) in
  let m' := demo_exec [CallListServers; CallGetAllTools; CallInitialize;
                       CallGetActiveServer] m1 in
  self m' = self m1 /\ world m' = world m1 /\
  calls m' = calls m1 ++ [EvGetServerNames; EvGetServerNames].
Proof.
  destruct (readonly_calls_frame Demo.connector Demo.client Demo.adapter
              [CallListServers; CallGetAllTools; CallInitialize;
               CallGetActiveServer]
              (snd (demo_connect "a" Demo.m0)))
    as (Hself & Hworld & _).
  { repeat constructor. }
  split; [exact Hself|]. split; [exact Hworld|].
  vm_compute. reflexivity.
Defined.


Lemma flags_mirror_cache_witness :
  let m' := demo_exec [CallConnectToServer "a"; CallConnectToServer "c";
                       CallSwitchServer ""] Demo.m0 in
  initialized_servers (self m') !! "a" = Some true /\
  initialized_servers (self m') !! "c" = None /\
  flags_match (self m').
Proof.
  destruct (flags_mirror_cache Demo.connector Demo.client Demo.adapter)
    as (Hinit & Hruns & _).
  split; [vm_compute; reflexivity|]. split; [vm_compute; reflexivity|].
  apply Hruns. exact Hinit.
Defined.

Lemma reconnect_reuses_cache_witness :
  let m := snd (demo_connect "" (snd (demo_connect "a" Demo.m0))) in
  let r := demo_connect "a" m in
  active_server (self m) = Some "" /\
  fst r = inr "Connected to MCP server 'a'. 2 tools are now available." /\
  active_server (self (snd r)) = Some "a" /\
  adapter_calls (calls (snd r)) = adapter_calls (calls m).
Proof.
  set (m := snd (demo_connect "" (snd (demo_connect "a" Demo.m0)))).
  assert ("a" ∈ get_server_names Demo.client (world m)) as Hk by known.
  assert (active_server (self m) <> Some "a") as Ha
    by (vm_compute; discriminate).
  assert (demo_session "a" (log_call EvGetServerNames m)
          = (inr "a", snd (demo_session "a" (log_call EvGetServerNames m))))
    as Hs by (vm_compute; reflexivity).
  assert (_server_tools (self m) !! "a"
          = Some (mkPyList 1 [Adapted "read_file"; Adapted "write_file"]))
    as Hl by (vm_compute; reflexivity).
  destruct (reconnect_reuses_cache Demo.connector Demo.client Demo.adapter
              "a" m _ _ _ Hk Ha Hs Hl) as (Htxt & Hself & _ & Hcalls).
  split; [vm_compute; reflexivity|]. split; [exact Htxt|].
  split; [by rewrite Hself|exact Hcalls].
Defined.

Lemma connect_exposes_tools_witness :
  let m1 := snd (demo_connect "a" Demo.m0) in
  let l := mkPyList 1 [Adapted "read_file"; Adapted "write_file"] in
  (demo_connect "a" Demo.m0) = (inr (connected_message "a" 2), m1) /\
  _server_tools (self m1) !! "a" = Some l /\
  fst (get_active_server m1) = inr "Currently active MCP server: a" /\
  fst (get_active_server_tools m1) = inr (Alias l).
Proof.
  set (m1 := snd (demo_connect "a" Demo.m0)).
  assert (demo_connect "a" Demo.m0 = (inr (connected_message "a" 2), m1))
    as H1 by (vm_compute; reflexivity).
  assert ("a" <> "") as Hne by discriminate.
  destruct (connect_exposes_tools Demo.connector Demo.client Demo.adapter
              "a" Demo.m0 2 m1 Hne H1)
    as (l & Hl & _ & Hactive & Htools & _).
  assert (Some l = Some (mkPyList 1 [Adapted "read_file"; Adapted "write_file"]))
    as [= ->] by (rewrite <- Hl; vm_compute; reflexivity).
  split; [exact H1|]. split; [exact Hl|].
  split; [by rewrite Hactive|by rewrite Htools].
Defined.

Lemma list_servers_after_connect_witness :
  let m1 := snd (demo_connect "a" Demo.m0) in
  fst (list_servers Demo.client m1)
    = inr ("Available MCP servers:" +:+ newline
           +:+ "1. a (ACTIVE)" +:+ newline
           +:+ "2. b" +:+ newline
           +:+ "3. c" +:+ newline
           +:+ "4. d" +:+ newline
           +:+ "5. " +:+ newline).
Proof.
  set (m1 := snd (demo_connect "a" Demo.m0)).
  assert (demo_connect "a" Demo.m0 = (inr (connected_message "a" 2), m1))
    as H1 by (vm_compute; reflexivity).
  assert ("a" ∈ get_server_names Demo.client (world m1)) as Hk by known.
  etransitivity;
    [exact (list_servers_after_connect Demo.connector Demo.client
              Demo.adapter "a" Demo.m0 2 m1 H1 Hk)|].
  vm_compute. reflexivity.
Defined.

Lemma failed_connect_shows_active_witness :
  let m1 := snd (demo_connect "a" Demo.m0) in
  let r := demo_connect "c" m1 in
  fst (get_all_tools m1)
    = inr (management_tools ++ [Adapted "read_file"; Adapted "write_file"]) /\
  fst r = inr "Failed to connect to server 'c': tools/list failed" /\
  fst (get_active_server (snd r)) = inr "Currently active MCP server: c" /\
  fst (get_all_tools (snd r)) = inr management_tools.
Proof.
  set (m1 := snd (demo_connect "a" Demo.m0)).
  assert ("c" <> "") as Hne by discriminate.
  assert ("c" ∈ get_server_names Demo.client (world m1)) as Hk by known.
  assert (active_server (self m1) <> Some "c") as Ha
    by (vm_compute; discriminate).
  assert (demo_session "c" (log_call EvGetServerNames m1)
          = (inr "c", snd (demo_session "c" (log_call EvGetServerNames m1))))
    as Hs by (vm_compute; reflexivity).
  assert (_server_tools (self m1) !! "c" = None) as Hl
    by (vm_compute; reflexivity).
  destruct (failed_connect_shows_active Demo.connector Demo.client
              Demo.adapter "c" m1 _ _ (OtherException "tools/list failed")
              ["c"; "a"] Hne Hk Ha Hs Hl eq_refl)
    as (Htxt & Hactive & Hall).
  split; [vm_compute; reflexivity|]. split; [exact Htxt|].
  split; [by rewrite Hactive|exact Hall].
Defined.

Lemma call_log_growth_witness :
  let m' := demo_exec [CallConnectToServer "a"; CallListServers;
                       CallSwitchServer "c"] Demo.m0 in
  calls m'
    = [EvGetServerNames; EvGetSession "a"; EvCreateSession "a";
       EvCreateTools ["a"]; EvGetServerNames; EvGetServerNames;
       EvGetSession "c"; EvCreateSession "c"; EvCreateTools ["c"]] /\
  Forall one_connector (calls m').
Proof.
  split; [vm_compute; reflexivity|].
  apply (proj2 (call_log_growth Demo.connector Demo.client Demo.adapter)).
  constructor.
Defined.

Lemma cache_size_bounded_witness :
  let m' := demo_exec [CallConnectToServer "a"; CallConnectToServer "c";
                       CallConnectToServer "a"] Demo.m0 in
  size (_server_tools (self m')) = 1 /\
  adapter_calls (calls m') = 2 /\
  size (_server_tools (self m')) <= adapter_calls (calls m').
Proof.
  split; [vm_compute; reflexivity|]. split; [vm_compute; reflexivity|].
  apply (cache_size_bounded Demo.connector Demo.client Demo.adapter).
  vm_compute. constructor.
Defined.
